(** * timer_lib: the POSIX backend of [dtimer.c]

    A shallow embedding of the clock adapter in [src/dtimer.c], as it is
    compiled when neither [_WIN32]/[_WIN64] nor [__APPLE__] is defined
    ([TIMER_PLATFORM_POSIX]).  Tick values are unsigned 64-bit integers,
    modelled as [Z] with the wrap-around written out; durations are IEEE 754
    binary64 numbers, modelled by Rocq's primitive floats; the three
    file-scope variables and the calls to [clock_gettime] are threaded
    through a small state-and-trace monad. *)

From Stdlib Require Import ZArith Lia List Bool Floats Uint63.
Import ListNotations.

Local Open Scope Z_scope.

(** ** Machine integers *)

(** Modelled from the spec: [dtimer.h] is not among the sources, so the
    typedef of [tick_t] is missing; the spec says tick values are unsigned
    64-bit, and [dtimer.c] uses [tick_t] and [uint64_t] for the same
    computation: a value in [0, 2^64). *)
Definition tick_t := Z.

Definition is_tick (t : tick_t) : Prop := 0 <= t < 2 ^ 64.

(** Conversion to [uint64_t] and the result of every unsigned 64-bit
    operation: reduction modulo 2^64. *)
Definition u64 (z : Z) : tick_t := z mod 2 ^ 64.

(** ** Doubles *)

(** Modelled from the spec: [dtimer.h] is not among the sources, so the
    typedef of [deltatime_t] is missing; the spec says all durations are
    double-precision floating point, so the cast [(deltatime_t)] of a
    [double] is the identity. *)
Definition deltatime_t := float.

(** [(double)x] for an unsigned 64-bit [x]: the integer rounded to the
    nearest binary64 number, ties to even. *)
Definition of_uint64 (x : tick_t) : float :=
  SF2Prim (binary_normalize prec emax x 0 false).

(** ** The platform clock *)

Record timespec := { tv_sec : Z; tv_nsec : Z }.

Inductive clockid_t := CLOCK_REALTIME | CLOCK_MONOTONIC.

(** What the n-th call of [clock_gettime] does with the clock it is asked
    for and the struct it is handed: its return code and the contents of the
    struct afterwards. *)
Definition platform := clockid_t -> nat -> timespec -> Z * timespec.

(** ** File-scope state *)

Record state := {
  timerlib_freq : tick_t;      (* static tick_t timerlib_freq = 1000000000ULL *)
  timerlib_oofreq : float;     (* static double timerlib_oofreq = 0 *)
  last_mark_ticks : tick_t;    (* static tick_t last_mark_ticks = 0 *)
  clock_calls : nat            (* calls of clock_gettime made so far *)
}.

Definition initial_state : state :=
  {| timerlib_freq := 1000000000;
     timerlib_oofreq := 0%float;
     last_mark_ticks := 0;
     clock_calls := 0 |}.

(** What a call does to the outside and to the file-scope variables, in
    program order. *)
Inductive event :=
| ev_clock_gettime (id : clockid_t)
| ev_store_freq (v : tick_t)
| ev_store_oofreq (f : float)
| ev_store_mark (v : tick_t).

(** ** The monad: state passing with a trace of events *)

Definition M (A : Type) : Type := state -> A * state * list event.

Definition ret {A} (a : A) : M A := fun s => (a, s, []).

Definition bind {A B} (m : M A) (k : A -> M B) : M B :=
  fun s =>
    let '(a, s1, t1) := m s in
    let '(b, s2, t2) := k a s1 in
    (b, s2, t1 ++ t2).

Notation "x <- m ;; k" := (bind m (fun x => k))
  (at level 61, m at next level, right associativity).
Notation "m ;;; k" := (bind m (fun _ => k))
  (at level 61, right associativity).

Definition result {A} (r : A * state * list event) : A := fst (fst r).
Definition final {A} (r : A * state * list event) : state := snd (fst r).
Definition events {A} (r : A * state * list event) : list event := snd r.

Definition get_freq : M tick_t := fun s => (timerlib_freq s, s, []).
Definition get_oofreq : M float := fun s => (timerlib_oofreq s, s, []).
Definition get_mark : M tick_t := fun s => (last_mark_ticks s, s, []).

Definition set_freq (v : tick_t) : M unit := fun s =>
  (tt,
   {| timerlib_freq := v; timerlib_oofreq := timerlib_oofreq s;
      last_mark_ticks := last_mark_ticks s; clock_calls := clock_calls s |},
   [ev_store_freq v]).

Definition set_oofreq (f : float) : M unit := fun s =>
  (tt,
   {| timerlib_freq := timerlib_freq s; timerlib_oofreq := f;
      last_mark_ticks := last_mark_ticks s; clock_calls := clock_calls s |},
   [ev_store_oofreq f]).

Definition set_mark (v : tick_t) : M unit := fun s =>
  (tt,
   {| timerlib_freq := timerlib_freq s; timerlib_oofreq := timerlib_oofreq s;
      last_mark_ticks := v; clock_calls := clock_calls s |},
   [ev_store_mark v]).

(** The number of stores to [last_mark_ticks] in a trace. *)
Fixpoint mark_writes (t : list event) : nat :=
  match t with
  | [] => 0%nat
  | ev_store_mark _ :: t' => S (mark_writes t')
  | _ :: t' => mark_writes t'
  end.

(** [struct timespec ts = {.tv_sec = 0, .tv_nsec = 0}] *)
Definition ts_zero : timespec := {| tv_sec := 0; tv_nsec := 0 |}.

(** [((uint64_t)ts.tv_sec * 1000000000ULL) + ts.tv_nsec], every step in
    [uint64_t]. *)
Definition timespec_to_ticks (ts : timespec) : tick_t :=
  u64 (u64 (u64 (tv_sec ts) * 1000000000) + u64 (tv_nsec ts)).

Section Posix.

Variable clock : platform.

Definition clock_gettime (id : clockid_t) (ts : timespec) : M (Z * timespec) :=
  fun s =>
    (clock id (clock_calls s) ts,
     {| timerlib_freq := timerlib_freq s; timerlib_oofreq := timerlib_oofreq s;
        last_mark_ticks := last_mark_ticks s; clock_calls := S (clock_calls s) |},
     [ev_clock_gettime id]).

(** The struct as the next call of [clock_gettime id] leaves it, starting
    from the zeroed struct every caller in [dtimer.c] hands in. *)
Definition next_reading (id : clockid_t) (s : state) : timespec :=
  snd (clock id (clock_calls s) ts_zero).

Definition next_rc (id : clockid_t) (s : state) : Z :=
  fst (clock id (clock_calls s) ts_zero).

(** ** The library *)

Definition timer_lib_initialize : M Z :=
  r <- clock_gettime CLOCK_MONOTONIC ts_zero ;;
  if negb (fst r =? 0) then ret (-1)
  else
    set_freq 1000000000 ;;;
    f <- get_freq ;;
    set_oofreq (1 / of_uint64 f)%float ;;;
    ret 0.

Definition timer_lib_shutdown : M unit := ret tt.

Definition timer_current_in_ticks : M tick_t :=
  r <- clock_gettime CLOCK_MONOTONIC ts_zero ;;
  ret (timespec_to_ticks (snd r)).

Definition timer_ticks_per_second : M tick_t := get_freq.

Definition timer_elapsed_ticks (t : tick_t) : M tick_t :=
  r <- clock_gettime CLOCK_MONOTONIC ts_zero ;;
  let curclock := timespec_to_ticks (snd r) in
  let dt := u64 (curclock - t) in
  ret dt.

Definition timer_elapsed (t : tick_t) : M deltatime_t :=
  dt <- timer_elapsed_ticks t ;;
  oofreq <- get_oofreq ;;
  ret (of_uint64 dt * oofreq)%float.

Definition timer_ticks_to_seconds (dt : tick_t) : M deltatime_t :=
  oofreq <- get_oofreq ;;
  ret (of_uint64 dt * oofreq)%float.

Definition timer_system_in_millisecond : M tick_t :=
  r <- clock_gettime CLOCK_REALTIME ts_zero ;;
  let ts := snd r in
  ret (u64 (u64 (u64 (tv_sec ts) * 1000) + u64 (tv_nsec ts) / 1000000)).

Definition timer_system_in_microsecond : M tick_t :=
  r <- clock_gettime CLOCK_REALTIME ts_zero ;;
  let ts := snd r in
  ret (u64 (u64 (u64 (tv_sec ts) * 1000000) + u64 (tv_nsec ts) / 1000)).

Definition timer_system_in_nanosecond : M tick_t :=
  r <- clock_gettime CLOCK_REALTIME ts_zero ;;
  let ts := snd r in
  ret (u64 (u64 (tv_sec ts) * 1000000000)).

Definition timer_elapsed_from_lastCall : M deltatime_t :=
  mark0 <- get_mark ;;
  (if 0 =? mark0
   then t <- timer_current_in_ticks ;; set_mark t
   else ret tt) ;;;
  now <- timer_current_in_ticks ;;
  mark <- get_mark ;;
  freq <- get_freq ;;
  let sec := (of_uint64 (u64 (now - mark)) / of_uint64 freq)%float in
  set_mark now ;;;
  ret sec.

(** The tick value [timer_current_in_ticks] computes from the reply to the
    n-th call of [clock_gettime], when that call asks for the monotonic
    clock. *)
Definition reading_at (n : nat) : tick_t :=
  timespec_to_ticks (snd (clock CLOCK_MONOTONIC n ts_zero)).

(** ** Sequences of calls *)

Inductive call :=
| call_initialize
| call_shutdown
| call_current_in_ticks
| call_ticks_per_second
| call_elapsed (t : tick_t)
| call_elapsed_ticks (t : tick_t)
| call_ticks_to_seconds (dt : tick_t)
| call_system_in_millisecond
| call_system_in_microsecond
| call_system_in_nanosecond
| call_elapsed_from_lastCall.

Definition after (c : call) (s : state) : state :=
  match c with
  | call_initialize => final (timer_lib_initialize s)
  | call_shutdown => final (timer_lib_shutdown s)
  | call_current_in_ticks => final (timer_current_in_ticks s)
  | call_ticks_per_second => final (timer_ticks_per_second s)
  | call_elapsed t => final (timer_elapsed t s)
  | call_elapsed_ticks t => final (timer_elapsed_ticks t s)
  | call_ticks_to_seconds dt => final (timer_ticks_to_seconds dt s)
  | call_system_in_millisecond => final (timer_system_in_millisecond s)
  | call_system_in_microsecond => final (timer_system_in_microsecond s)
  | call_system_in_nanosecond => final (timer_system_in_nanosecond s)
  | call_elapsed_from_lastCall => final (timer_elapsed_from_lastCall s)
  end.

(** A call that is [timer_lib_initialize] and returns 0. *)
Definition init_succeeds (c : call) (s : state) : bool :=
  match c with
  | call_initialize => result (timer_lib_initialize s) =? 0
  | _ => false
  end.

(** The states of a process in which [timer_lib_initialize] has not
    succeeded so far. *)
Inductive never_initialized : state -> Prop :=
| ni_start : never_initialized initial_state
| ni_call : forall s c,
    never_initialized s ->
    init_succeeds c s = false ->
    never_initialized (after c s).

(** The states of a process in which [timer_lib_initialize] has succeeded
    at least once. *)
Inductive initialized : state -> Prop :=
| in_first : forall s c,
    init_succeeds c s = true ->
    initialized (after c s)
| in_call : forall s c,
    initialized s ->
    initialized (after c s).

End Posix.

(** ** Concrete platforms, for running the model *)

(** A clock that answers every call with the same return code and struct. *)
Definition const_clock (rc : Z) (ts : timespec) : platform :=
  fun _ _ _ => (rc, ts).

(** A clock that succeeds and answers its n-th call with the n-th struct of
    a list (and with the incoming struct once the list is used up). *)
Definition list_clock (l : list timespec) : platform :=
  fun _ n ts => (0, nth n l ts).

(** A state as [timer_elapsed_from_lastCall] leaves it: frequency and
    reciprocal as after initialisation, the mark at [m]. *)
Definition marked_state (m : tick_t) : state :=
  {| timerlib_freq := 1000000000;
     timerlib_oofreq := (1 / of_uint64 1000000000%Z)%float;
     last_mark_ticks := m;
     clock_calls := 0 |}.


(** A clock that fails every call and leaves the struct as it was handed
    in. *)
Definition failing_clock : platform :=
  fun _ _ ts => (-1, ts).

(** A clock that succeeds and reads n seconds at its n-th call. *)
Definition seconds_clock : platform :=
  fun _ n _ => (0, {| tv_sec := Z.of_nat n; tv_nsec := 0 |}).

(** The same clock, except that its first call fails. *)
Definition late_clock : platform :=
  fun _ n _ => (if Nat.eqb n 0 then -1 else 0,
                {| tv_sec := Z.of_nat n; tv_nsec := 0 |}).

(** ** Well-formed clock readings *)

(** A struct as a working clock fills it: whole seconds since the clock's
    epoch and the nanoseconds into the current second. *)
Definition normalized (ts : timespec) : Prop :=
  0 <= tv_sec ts /\ 0 <= tv_nsec ts < 1000000000.

(** The time a struct stands for, in nanoseconds. *)
Definition nanoseconds (ts : timespec) : Z :=
  tv_sec ts * 1000000000 + tv_nsec ts.

(** A double that is neither a NaN nor negative nor infinite, as C's
    comparisons see it: [0.0 <= x && x < INFINITY]. *)
Definition finite_nonneg (x : float) : bool :=
  ((0 <=? x) && (x <? infinity))%float.

(** ** Whole processes *)

Section Process.

Variable clock : platform.

(** The events of one call. *)
Definition trace (c : call) (s : state) : list event :=
  match c with
  | call_initialize => events (timer_lib_initialize clock s)
  | call_shutdown => events (timer_lib_shutdown s)
  | call_current_in_ticks => events (timer_current_in_ticks clock s)
  | call_ticks_per_second => events (timer_ticks_per_second s)
  | call_elapsed t => events (timer_elapsed clock t s)
  | call_elapsed_ticks t => events (timer_elapsed_ticks clock t s)
  | call_ticks_to_seconds dt => events (timer_ticks_to_seconds dt s)
  | call_system_in_millisecond => events (timer_system_in_millisecond clock s)
  | call_system_in_microsecond => events (timer_system_in_microsecond clock s)
  | call_system_in_nanosecond => events (timer_system_in_nanosecond clock s)
  | call_elapsed_from_lastCall => events (timer_elapsed_from_lastCall clock s)
  end.

(** Is an event a store to one of the file-scope variables? *)
Definition is_store (e : event) : bool :=
  match e with
  | ev_clock_gettime _ => false
  | _ => true
  end.

(** The states a process can be in: the static initialisers, then any
    calls of the library, in any order and with any arguments. *)
Inductive reachable : state -> Prop :=
| re_start : reachable initial_state
| re_call : forall s c, reachable s -> reachable (after clock c s).

End Process.

(** ** The demonstration program, [test.c] *)

(** What [main] prints. *)
Inductive output :=
| out_banner                                (* "Timer test\n" *)
| out_resolution (ms : float) (ticks : Z).  (* "Resolution: %lfms (%d ticks)\n" *)

(** [(int)res] for an unsigned 64-bit [res]: the value modulo 2^32, read as
    a signed 32-bit integer (what the usual compilers define for a value out
    of range). *)
Definition to_int (z : Z) : Z := (z + 2 ^ 31) mod 2 ^ 32 - 2 ^ 31.

Section Demo.

Variable clock : platform.

(** [do { tick = timer_elapsed_ticks( time ); } while( !tick );] The fuel
    bounds the number of iterations; [None] is a loop still running when it
    is used up. *)
Fixpoint spin (fuel : nat) (time : tick_t) : M (option tick_t) :=
  match fuel with
  | O => ret None
  | S fuel' =>
    tick <- timer_elapsed_ticks clock time ;;
    if tick =? 0 then spin fuel' time else ret (Some tick)
  end.

(** The [while( 1 )] loop of [main], from [start] and the resolution [res]
    found so far. *)
Fixpoint main_loop (fuel : nat) (start res : tick_t) : M (option tick_t) :=
  match fuel with
  | O => ret None
  | S fuel' =>
    time <- timer_current_in_ticks clock ;;
    spun <- spin fuel time ;;
    match spun with
    | None => ret None
    | Some tick =>
      let res := if tick <? res then tick else res in
      sec <- timer_elapsed clock start ;;
      if (10 <? sec)%float then ret (Some res)
      else main_loop fuel' start res
    end
  end.

Definition main (fuel : nat) : M (option (list output * Z)) :=
  timer_lib_initialize clock ;;;
  let res := 18446744073709551615 in
  freq <- timer_ticks_per_second ;;
  start <- timer_current_in_ticks clock ;;
  start2 <- timer_current_in_ticks clock ;;
  start3 <- timer_system_in_millisecond clock ;;
  x <- timer_system_in_microsecond clock ;;
  sec1 <- timer_elapsed_from_lastCall clock ;;
  let l1 := (sec1 * 1e9)%float in
  sec2 <- timer_elapsed_from_lastCall clock ;;
  let l2 := (sec2 * 1e9)%float in
  sec3 <- timer_elapsed_from_lastCall clock ;;
  let l3 := (sec3 * 1e9)%float in
  looped <- main_loop fuel start res ;;
  match looped with
  | None => ret None
  | Some res =>
    sec <- timer_ticks_to_seconds res ;;
    timer_lib_shutdown ;;;
    ret (Some ([out_banner; out_resolution (1000 * sec)%float (to_int res)], 0))
  end.

End Demo.

(** ** The Windows backend

    [dtimer.c] as it is compiled when [_WIN32] or [_WIN64] is defined
    ([TIMER_PLATFORM_WINDOWS]): the functions whose bodies differ from the
    POSIX ones.  The file-scope variables are the same three, so the state
    and the monad are shared; [clock_calls] counts the calls of the system,
    which leave no event in the trace. *)

Module Windows.

(** [struct __timeb64], as [_ftime64_s] fills it: [time] is a signed 64-bit
    number of seconds, [millitm] an [unsigned short]. *)
Record timeb64 := { time : Z; millitm : Z }.

(** What the n-th call of the system does.  The two performance-counter
    queries get the 64-bit word their argument points to and give their
    [BOOL] and the word afterwards; [indeterminate] is what an uninitialised
    local [tick_t] holds at that point. *)
Record system := {
  QueryPerformanceFrequency : nat -> tick_t -> bool * Z;
  QueryPerformanceCounter : nat -> tick_t -> bool * Z;
  ftime64_s : nat -> timeb64;
  indeterminate : nat -> tick_t
}.

(** [static tick_t timerlib_freq = 10000000ULL] *)
Definition initial_state : state :=
  {| timerlib_freq := 10000000;
     timerlib_oofreq := 0%float;
     last_mark_ticks := 0;
     clock_calls := 0 |}.

Section Backend.

Variable sys : system.

Definition tick (s : state) : state :=
  {| timerlib_freq := timerlib_freq s; timerlib_oofreq := timerlib_oofreq s;
     last_mark_ticks := last_mark_ticks s; clock_calls := S (clock_calls s) |}.

(** A query on a local variable holding [word]: the [BOOL] and the
    variable afterwards, read back as a [tick_t]. *)
Definition query (api : system -> nat -> tick_t -> bool * Z) (word : tick_t)
  : M (bool * tick_t) :=
  fun s =>
    let r := api sys (clock_calls s) word in
    ((fst r, u64 (snd r)), tick s, []).

(** An uninitialised local [tick_t]. *)
Definition uninitialized : M tick_t :=
  fun s => (indeterminate sys (clock_calls s), s, []).

Definition ftime64 : M timeb64 :=
  fun s => (ftime64_s sys (clock_calls s), tick s, []).

Definition timer_lib_initialize : M Z :=
  unused <- uninitialized ;;
  freq0 <- get_freq ;;
  f <- query QueryPerformanceFrequency freq0 ;;
  set_freq (snd f) ;;;
  if negb (fst f) then ret (-1)
  else
    c <- query QueryPerformanceCounter unused ;;
    if negb (fst c) then ret (-1)
    else
      freq <- get_freq ;;
      set_oofreq (1 / of_uint64 freq)%float ;;;
      ret 0.

Definition timer_current_in_ticks : M tick_t :=
  curclock <- uninitialized ;;
  c <- query QueryPerformanceCounter curclock ;;
  ret (snd c).

Definition timer_elapsed_ticks (t : tick_t) : M tick_t :=
  let curclock := t in
  c <- query QueryPerformanceCounter curclock ;;
  let curclock := snd c in
  let dt := u64 (curclock - t) in
  ret dt.

Definition timer_system_in_millisecond : M tick_t :=
  tb <- ftime64 ;;
  ret (u64 (u64 (u64 (time tb) * 1000) + u64 (millitm tb))).

Definition timer_system_in_microsecond : M tick_t :=
  tb <- ftime64 ;;
  curclock <- uninitialized ;;
  c <- query QueryPerformanceCounter curclock ;;
  ret (u64 (u64 (u64 (time tb) * 1000000) + u64 (u64 (millitm tb) * 1000))).

Definition timer_system_in_nanosecond : M tick_t :=
  tb <- ftime64 ;;
  curclock <- uninitialized ;;
  c <- query QueryPerformanceCounter curclock ;;
  ret (u64 (u64 (u64 (time tb) * 1000000000) + u64 (u64 (millitm tb) * 1000000))).

(** The remaining functions have one body for all platforms.
    [timer_lib_shutdown], [timer_ticks_per_second] and
    [timer_ticks_to_seconds] call nothing and are the ones above; these two
    call the Windows readers. *)

Definition timer_elapsed (t : tick_t) : M deltatime_t :=
  dt <- timer_elapsed_ticks t ;;
  oofreq <- get_oofreq ;;
  ret (of_uint64 dt * oofreq)%float.

Definition timer_elapsed_from_lastCall : M deltatime_t :=
  mark0 <- get_mark ;;
  (if 0 =? mark0
   then t <- timer_current_in_ticks ;; set_mark t
   else ret tt) ;;;
  now <- timer_current_in_ticks ;;
  mark <- get_mark ;;
  freq <- get_freq ;;
  let sec := (of_uint64 (u64 (now - mark)) / of_uint64 freq)%float in
  set_mark now ;;;
  ret sec.

Definition after (c : call) (s : state) : state :=
  match c with
  | call_initialize => final (timer_lib_initialize s)
  | call_shutdown => final (timer_lib_shutdown s)
  | call_current_in_ticks => final (timer_current_in_ticks s)
  | call_ticks_per_second => final (timer_ticks_per_second s)
  | call_elapsed t => final (timer_elapsed t s)
  | call_elapsed_ticks t => final (timer_elapsed_ticks t s)
  | call_ticks_to_seconds dt => final (timer_ticks_to_seconds dt s)
  | call_system_in_millisecond => final (timer_system_in_millisecond s)
  | call_system_in_microsecond => final (timer_system_in_microsecond s)
  | call_system_in_nanosecond => final (timer_system_in_nanosecond s)
  | call_elapsed_from_lastCall => final (timer_elapsed_from_lastCall s)
  end.

Definition init_succeeds (c : call) (s : state) : bool :=
  match c with
  | call_initialize => result (timer_lib_initialize s) =? 0
  | _ => false
  end.

(** The states of a Windows process in which [timer_lib_initialize] has not
    succeeded so far. *)
Inductive never_initialized : state -> Prop :=
| ni_start : never_initialized initial_state
| ni_call : forall s c,
    never_initialized s ->
    init_succeeds c s = false ->
    never_initialized (after c s).

End Backend.

End Windows.

(** ** The Apple backend

    [dtimer.c] as it is compiled when [__APPLE__] is defined
    ([TIMER_PLATFORM_APPLE]): the functions whose bodies differ from the
    POSIX ones.  There is a fourth file-scope variable, [timerlib_info], and
    [absolutetime_to_nanoseconds] divides by one of its fields: a division by
    zero has no result. *)

Module Apple.

(** [mach_timebase_info_data_t]: two [uint32_t]. *)
Record mach_timebase_info_data_t := { numer : Z; denom : Z }.

Definition u32 (z : Z) : Z := z mod 2 ^ 32.

(** What the n-th call of the system does: [mach_timebase_info] gets the
    struct its argument points to and gives its [kern_return_t] and the
    struct afterwards; [mach_absolute_time] gives a [uint64_t]. *)
Record system := {
  mach_timebase_info :
    nat -> mach_timebase_info_data_t -> Z * mach_timebase_info_data_t;
  mach_absolute_time : nat -> Z
}.

Record state := {
  timerlib_info : mach_timebase_info_data_t;  (* static, zero-initialised *)
  timerlib_freq : tick_t;                     (* = 1000000000ULL *)
  timerlib_oofreq : float;                    (* = 0 *)
  last_mark_ticks : tick_t;                   (* = 0 *)
  system_calls : nat
}.

Definition initial_state : state :=
  {| timerlib_info := {| numer := 0; denom := 0 |};
     timerlib_freq := 1000000000;
     timerlib_oofreq := 0%float;
     last_mark_ticks := 0;
     system_calls := 0 |}.

(** State passing, with [None] for a computation without a result. *)
Definition M (A : Type) : Type := state -> option (A * state).

Definition ret {A} (a : A) : M A := fun s => Some (a, s).

Definition bind {A B} (m : M A) (k : A -> M B) : M B :=
  fun s => match m s with
           | Some (a, s1) => k a s1
           | None => None
           end.

Declare Scope apple_scope.
Notation "x <- m ;; k" := (bind m (fun x => k))
  (at level 61, m at next level, right associativity) : apple_scope.
Local Open Scope apple_scope.

Definition value {A} (r : option (A * state)) : option A := option_map fst r.

Section Backend.

Variable sys : system.

Definition tick (s : state) : state :=
  {| timerlib_info := timerlib_info s; timerlib_freq := timerlib_freq s;
     timerlib_oofreq := timerlib_oofreq s;
     last_mark_ticks := last_mark_ticks s;
     system_calls := S (system_calls s) |}.

Definition call_mach_absolute_time : M Z :=
  fun s => Some (u64 (mach_absolute_time sys (system_calls s)), tick s).

(** [*clock = mach_time * timerlib_info.numer / timerlib_info.denom] *)
Definition absolutetime_to_nanoseconds (mach_time : Z) : M tick_t :=
  fun s =>
    let info := timerlib_info s in
    if denom info =? 0 then None
    else Some (u64 (mach_time * numer info) / denom info, s).

Definition timer_lib_initialize : M Z :=
  fun s =>
    let r := mach_timebase_info sys (system_calls s) (timerlib_info s) in
    let info := {| numer := u32 (numer (snd r)); denom := u32 (denom (snd r)) |} in
    let s1 := {| timerlib_info := info; timerlib_freq := timerlib_freq s;
                 timerlib_oofreq := timerlib_oofreq s;
                 last_mark_ticks := last_mark_ticks s;
                 system_calls := S (system_calls s) |} in
    if negb (fst r =? 0) then Some (-1, s1)
    else
      let s2 := {| timerlib_info := info; timerlib_freq := 1000000000;
                   timerlib_oofreq := (1 / of_uint64 1000000000%Z)%float;
                   last_mark_ticks := last_mark_ticks s;
                   system_calls := S (system_calls s) |} in
      Some (0, s2).

Definition timer_current_in_ticks : M tick_t :=
  t <- call_mach_absolute_time ;;
  curclock <- absolutetime_to_nanoseconds t ;;
  ret curclock.

Definition timer_elapsed_ticks (t : tick_t) : M tick_t :=
  m <- call_mach_absolute_time ;;
  curclock <- absolutetime_to_nanoseconds m ;;
  let dt := u64 (curclock - t) in
  ret dt.

Definition timer_system_in_millisecond : M tick_t :=
  m <- call_mach_absolute_time ;;
  curclock <- absolutetime_to_nanoseconds m ;;
  ret (curclock / 1000000).

Definition timer_system_in_microsecond : M tick_t :=
  m <- call_mach_absolute_time ;;
  curclock <- absolutetime_to_nanoseconds m ;;
  ret (curclock / 1000).

Definition timer_system_in_nanosecond : M tick_t :=
  m <- call_mach_absolute_time ;;
  curclock <- absolutetime_to_nanoseconds m ;;
  ret curclock.

(** The remaining functions have one body for all platforms; here they run
    on the Apple state and call the Apple readers. *)

Definition get_freq : M tick_t := fun s => Some (timerlib_freq s, s).
Definition get_oofreq : M float := fun s => Some (timerlib_oofreq s, s).
Definition get_mark : M tick_t := fun s => Some (last_mark_ticks s, s).

Definition set_mark (v : tick_t) : M unit := fun s =>
  Some (tt,
        {| timerlib_info := timerlib_info s; timerlib_freq := timerlib_freq s;
           timerlib_oofreq := timerlib_oofreq s;
           last_mark_ticks := v;
           system_calls := system_calls s |}).

Definition timer_lib_shutdown : M unit := ret tt.

Definition timer_ticks_per_second : M tick_t := get_freq.

Definition timer_elapsed (t : tick_t) : M deltatime_t :=
  dt <- timer_elapsed_ticks t ;;
  oofreq <- get_oofreq ;;
  ret (of_uint64 dt * oofreq)%float.

Definition timer_ticks_to_seconds (dt : tick_t) : M deltatime_t :=
  oofreq <- get_oofreq ;;
  ret (of_uint64 dt * oofreq)%float.

Definition timer_elapsed_from_lastCall : M deltatime_t :=
  mark0 <- get_mark ;;
  u <- (if 0 =? mark0
        then t <- timer_current_in_ticks ;; set_mark t
        else ret tt) ;;
  now <- timer_current_in_ticks ;;
  mark <- get_mark ;;
  freq <- get_freq ;;
  let sec := (of_uint64 (u64 (now - mark)) / of_uint64 freq)%float in
  v <- set_mark now ;;
  ret sec.

(** The state after a call, if the call has a result. *)
Definition after (c : call) (s : state) : option state :=
  match c with
  | call_initialize => option_map snd (timer_lib_initialize s)
  | call_shutdown => option_map snd (timer_lib_shutdown s)
  | call_current_in_ticks => option_map snd (timer_current_in_ticks s)
  | call_ticks_per_second => option_map snd (timer_ticks_per_second s)
  | call_elapsed t => option_map snd (timer_elapsed t s)
  | call_elapsed_ticks t => option_map snd (timer_elapsed_ticks t s)
  | call_ticks_to_seconds dt => option_map snd (timer_ticks_to_seconds dt s)
  | call_system_in_millisecond => option_map snd (timer_system_in_millisecond s)
  | call_system_in_microsecond => option_map snd (timer_system_in_microsecond s)
  | call_system_in_nanosecond => option_map snd (timer_system_in_nanosecond s)
  | call_elapsed_from_lastCall => option_map snd (timer_elapsed_from_lastCall s)
  end.

Definition init_succeeds (c : call) (s : state) : bool :=
  match c with
  | call_initialize =>
      match value (timer_lib_initialize s) with
      | Some rv => rv =? 0
      | None => false
      end
  | _ => false
  end.

(** The states of an Apple process in which [timer_lib_initialize] has not
    succeeded so far. *)
Inductive never_initialized : state -> Prop :=
| ni_start : never_initialized initial_state
| ni_call : forall s c s',
    never_initialized s ->
    init_succeeds c s = false ->
    after c s = Some s' ->
    never_initialized s'.

End Backend.

End Apple.

(** ** Concrete systems, for running the two models *)

(** A Windows system with a 10 MHz counter whose counter query fails and
    leaves its argument alone, at 5.123 s of wall-clock time. *)
Definition windows_sample : Windows.system :=
  {| Windows.QueryPerformanceFrequency := fun _ _ => (true, 10000000);
     Windows.QueryPerformanceCounter := fun _ word => (false, word);
     Windows.ftime64_s := fun _ => {| Windows.time := 5; Windows.millitm := 123 |};
     Windows.indeterminate := fun _ => 0 |}.

(** An Apple system with the timebase 125/3 whose clock reads 24000000 mach
    units after every call. *)
Definition apple_sample : Apple.system :=
  {| Apple.mach_timebase_info :=
       fun _ _ => (0, {| Apple.numer := 125; Apple.denom := 3 |});
     Apple.mach_absolute_time := fun _ => 24000000 |}.

(** The Apple state once [timerlib_info] holds the timebase
    [numer / denom]. *)
Definition apple_state (numer denom : Z) : Apple.state :=
  {| Apple.timerlib_info := {| Apple.numer := numer; Apple.denom := denom |};
     Apple.timerlib_freq := 1000000000;
     Apple.timerlib_oofreq := (1 / of_uint64 1000000000%Z)%float;
     Apple.last_mark_ticks := 0;
     Apple.system_calls := 1 |}.

(** A Windows system whose frequency query succeeds and reports 12345
    ticks per second, and whose counter query fails. *)
Definition windows_no_counter : Windows.system :=
  {| Windows.QueryPerformanceFrequency := fun _ _ => (true, 12345);
     Windows.QueryPerformanceCounter := fun _ word => (false, word);
     Windows.ftime64_s := fun _ => {| Windows.time := 5; Windows.millitm := 123 |};
     Windows.indeterminate := fun _ => 0 |}.

(** An Apple system whose [mach_timebase_info] fails and leaves the struct
    alone. *)
Definition apple_no_timebase : Apple.system :=
  {| Apple.mach_timebase_info := fun _ info => (5, info);
     Apple.mach_absolute_time := fun _ => 24000000 |}.

(** An Apple system whose [mach_timebase_info] fails after having written
    the timebase 125/3. *)
Definition apple_late_failure : Apple.system :=
  {| Apple.mach_timebase_info :=
       fun _ _ => (5, {| Apple.numer := 125; Apple.denom := 3 |});
     Apple.mach_absolute_time := fun _ => 24000000 |}.

(** The Apple state after [timer_lib_initialize] has failed on
    [apple_late_failure] in a fresh process. *)
Definition apple_failed_state : Apple.state :=
  {| Apple.timerlib_info := {| Apple.numer := 125; Apple.denom := 3 |};
     Apple.timerlib_freq := 1000000000;
     Apple.timerlib_oofreq := 0%float;
     Apple.last_mark_ticks := 0;
     Apple.system_calls := 1 |}.

(** ** Rounding integers to binary64

    [binary_normalize] on the integers below 2^64, followed through the
    shifts of the specification of floats: the result is a finite number in
    canonical form, so it survives the passage through primitive floats. *)

Module Binary64.

Lemma digits2_pos_bounds (p : positive) :
  2 ^ (Z.pos (digits2_pos p) - 1) <= Z.pos p < 2 ^ Z.pos (digits2_pos p).
Proof.
  induction p as [p IH | p IH |]; cbn [digits2_pos].
  - rewrite Pos2Z.inj_succ.
    replace (Z.succ (Z.pos (digits2_pos p)) - 1) with (Z.succ (Z.pos (digits2_pos p) - 1)) by lia.
    rewrite !Z.pow_succ_r by lia. lia.
  - rewrite Pos2Z.inj_succ.
    replace (Z.succ (Z.pos (digits2_pos p)) - 1) with (Z.succ (Z.pos (digits2_pos p) - 1)) by lia.
    rewrite !Z.pow_succ_r by lia. lia.
  - cbn. lia.
Qed.

Lemma digits2_pos_unique (p : positive) (k : Z) :
  2 ^ (k - 1) <= Z.pos p < 2 ^ k -> Z.pos (digits2_pos p) = k.
Proof.
  intros [Hlo Hhi].
  destruct (digits2_pos_bounds p) as [Dlo Dhi].
  assert (k - 1 < Z.pos (digits2_pos p)).
  { apply (Z.pow_lt_mono_r_iff 2); lia. }
  assert (0 <= k).
  { destruct (Z.le_gt_cases 0 k) as [|Hk]; [assumption|].
    rewrite (Z.pow_neg_r 2 k) in Hhi by lia. lia. }
  assert (Z.pos (digits2_pos p) - 1 < k).
  { apply (Z.pow_lt_mono_r_iff 2); lia. }
  lia.
Qed.

Lemma shr_1_m (r : shr_record) :
  0 <= shr_m r -> shr_m (shr_1 r) = shr_m r / 2.
Proof.
  destruct r as [m r s]; cbn [shr_m]; intros Hm.
  destruct m as [|[p|p|]|p]; cbn [shr_1 shr_m]; try lia;
    Z.div_mod_to_equations; lia.
Qed.

Lemma iter_shr_1_m (n : positive) :
  forall r, 0 <= shr_m r ->
    shr_m (iter_pos shr_1 n r) = shr_m r / 2 ^ Z.pos n.
Proof.
  induction n as [n IH | n IH |]; intros r Hr; cbn [iter_pos].
  - assert (H1 : 0 <= shr_m (shr_1 r)) by (rewrite shr_1_m by assumption; apply Z.div_pos; lia).
    assert (H2 : 0 <= shr_m (iter_pos shr_1 n (shr_1 r))).
    { rewrite IH by assumption. apply Z.div_pos; lia. }
    rewrite IH, IH, shr_1_m by assumption.
    rewrite !Z.div_div by lia.
    f_equal. rewrite Pos2Z.inj_xI.
    replace (2 * Z.pos n + 1) with (Z.pos n + Z.pos n + 1) by lia.
    rewrite !Z.pow_add_r by lia. change (2 ^ 1) with 2. ring.
  - assert (H2 : 0 <= shr_m (iter_pos shr_1 n r)).
    { rewrite IH by assumption. apply Z.div_pos; lia. }
    rewrite IH, IH by assumption.
    rewrite !Z.div_div by lia.
    f_equal. rewrite <- Z.pow_add_r by lia. f_equal; lia.
  - rewrite shr_1_m by assumption. reflexivity.
Qed.

Lemma iter_xO_mul (p d : positive) :
  Z.pos (Pos.iter xO p d) = Z.pos p * 2 ^ Z.pos d.
Proof.
  induction d as [|d IH] using Pos.peano_ind.
  - cbn. lia.
  - rewrite Pos.iter_succ, Pos2Z.inj_xO, IH, Pos2Z.inj_succ, Z.pow_succ_r by lia. lia.
Qed.

Lemma round_nearest_even_range (m : Z) (l : location) :
  m <= round_nearest_even m l <= m + 1.
Proof.
  destruct l as [|[| |]]; cbn [round_nearest_even]; try lia.
  destruct (Z.even m); lia.
Qed.


Lemma fexp_shift (k e : Z) :
  53 <= k -> -1074 <= e -> fexp prec emax (k + e) - e = k - 53.
Proof. unfold fexp, SpecFloat.emin, prec, emax. lia. Qed.

(** The first shift of [binary_round_aux] leaves a 53-bit mantissa. *)
Lemma shr_fexp_normal (p : positive) (ex : Z) :
  53 <= Z.pos (digits2_pos p) -> -1074 <= ex ->
  exists mrs,
    shr_fexp prec emax (Z.pos p) ex loc_Exact
      = (mrs, ex + (Z.pos (digits2_pos p) - 53)) /\
    2 ^ 52 <= shr_m mrs < 2 ^ 53.
Proof.
  intros Hk Hex.
  destruct (digits2_pos_bounds p) as [Dlo Dhi].
  unfold shr_fexp. cbn [Zdigits2 shr_record_of_loc].
  rewrite fexp_shift by assumption.
  destruct (Z.pos (digits2_pos p) - 53) as [|n|n] eqn:En; try lia.
  - cbn [shr]. eexists; split; [f_equal; lia|]. cbn [shr_m].
    replace (Z.pos (digits2_pos p)) with 53 in * by lia.
    change (53 - 1) with 52 in Dlo. lia.
  - cbn [shr]. eexists; split; [reflexivity|].
    rewrite iter_shr_1_m by (cbn; lia). cbn [shr_m].
    assert (Hp : 2 ^ Z.pos (digits2_pos p) = 2 ^ 53 * 2 ^ Z.pos n).
    { rewrite <- Z.pow_add_r by lia. f_equal; lia. }
    assert (Hp' : 2 ^ (Z.pos (digits2_pos p) - 1) = 2 ^ 52 * 2 ^ Z.pos n).
    { rewrite <- Z.pow_add_r by lia. f_equal; lia. }
    assert (0 < 2 ^ Z.pos n) by (apply Z.pow_pos_nonneg; lia).
    split.
    + apply Z.div_le_lower_bound; lia.
    + apply Z.div_lt_upper_bound; lia.
Qed.

(** The second shift absorbs the carry of the rounding, if any. *)
Lemma shr_fexp_carry (sx : bool) (m : Z) (e : Z) :
  2 ^ 52 <= m <= 2 ^ 53 -> -1074 <= e < 971 ->
  exists q e',
    (let '(mrs, e') := shr_fexp prec emax m e loc_Exact in
     match shr_m mrs with
     | Z0 => S754_zero sx
     | Zpos q => if e' <=? emax - prec then S754_finite sx q e'
                 else S754_infinity sx
     | Zneg _ => S754_nan
     end) = S754_finite sx q e' /\
    bounded prec emax q e' = true.
Proof.
  intros Hm He.
  destruct m as [|q|q]; try (cbn in Hm; lia).
  destruct (Z.eq_dec (Z.pos q) (2 ^ 53)) as [E|E].
  - injection E as ->.
    unfold shr_fexp. cbn [Zdigits2 shr_record_of_loc].
    change (Z.pos (digits2_pos 9007199254740992)) with 54.
    rewrite fexp_shift by lia. change (54 - 53) with 1.
    cbn [shr iter_pos shr_1 shr_m].
    exists 4503599627370496%positive, (e + 1).
    replace (e + 1 <=? emax - prec) with true
      by (symmetry; apply Z.leb_le; unfold emax, prec; lia).
    split; [reflexivity|].
    unfold bounded, canonical_mantissa.
    change (Z.pos (digits2_pos 4503599627370496)) with 53.
    apply andb_true_intro; split; [apply Z.eqb_eq | apply Z.leb_le].
    + pose proof (fexp_shift 53 (e + 1)). lia.
    + unfold emax, prec; lia.
  - assert (Hd : Z.pos (digits2_pos q) = 53).
    { apply digits2_pos_unique. change (53 - 1) with 52. lia. }
    unfold shr_fexp. cbn [Zdigits2 shr_record_of_loc].
    rewrite Hd, fexp_shift by lia. change (53 - 53) with 0.
    cbn [shr shr_m].
    exists q, e.
    replace (e <=? emax - prec) with true
      by (symmetry; apply Z.leb_le; unfold emax, prec; lia).
    split; [reflexivity|].
    unfold bounded, canonical_mantissa. rewrite Hd.
    apply andb_true_intro; split; [apply Z.eqb_eq | apply Z.leb_le].
    + pose proof (fexp_shift 53 e). lia.
    + unfold emax, prec; lia.
Qed.

Lemma binary_round_aux_finite (sx : bool) (p : positive) (ex : Z) :
  53 <= Z.pos (digits2_pos p) -> -1074 <= ex ->
  Z.pos (digits2_pos p) + ex < 1024 ->
  exists m e,
    binary_round_aux prec emax sx (Z.pos p) ex loc_Exact = S754_finite sx m e /\
    bounded prec emax m e = true.
Proof.
  intros Hk Hex Hmax.
  destruct (shr_fexp_normal p ex Hk Hex) as (mrs & Hshr & Hm).
  unfold binary_round_aux. rewrite Hshr.
  pose proof (round_nearest_even_range (shr_m mrs) (loc_of_shr_record mrs)).
  apply shr_fexp_carry; lia.
Qed.

(** Every non-zero unsigned 64-bit integer converts to a finite, positive
    binary64 number in canonical form. *)
Lemma binary_normalize_uint64 (p : positive) :
  Z.pos p < 2 ^ 64 ->
  exists m e,
    binary_normalize prec emax (Z.pos p) 0 false = S754_finite false m e /\
    bounded prec emax m e = true.
Proof.
  intros Hp.
  destruct (digits2_pos_bounds p) as [Dlo Dhi].
  assert (Hk : Z.pos (digits2_pos p) <= 64).
  { assert (Z.pos (digits2_pos p) - 1 < 64) by (apply (Z.pow_lt_mono_r_iff 2); lia).
    lia. }
  cbn [binary_normalize]. unfold binary_round, shl_align.
  assert (Hf : fexp prec emax (Z.pos (digits2_pos p) + 0) = Z.pos (digits2_pos p) - 53).
  { unfold fexp, SpecFloat.emin, prec, emax. lia. }
  rewrite Hf.
  destruct (Z.pos (digits2_pos p) - 53 - 0) as [|d|d] eqn:Ed.
  - apply binary_round_aux_finite; lia.
  - apply binary_round_aux_finite; lia.
  - assert (Hd : Z.pos (digits2_pos (Pos.iter xO p d)) = 53).
    { apply digits2_pos_unique. rewrite iter_xO_mul.
      replace (53 - 1) with (Z.pos (digits2_pos p) - 1 + Z.pos d) by lia.
      replace (2 ^ 53) with (2 ^ (Z.pos (digits2_pos p) + Z.pos d))
        by (f_equal; lia).
      rewrite !Z.pow_add_r by lia.
      assert (0 < 2 ^ Z.pos d) by (apply Z.pow_pos_nonneg; lia).
      split; [apply Z.mul_le_mono_nonneg_r; lia | apply Z.mul_lt_mono_pos_r; lia]. }
    apply binary_round_aux_finite; lia.
Qed.

End Binary64.

(** ** Facts on [(double)x] *)

Lemma u64_is_tick (z : Z) : is_tick (u64 z).
Proof. unfold is_tick, u64. apply Z.mod_pos_bound. lia. Qed.

Lemma Prim2SF_of_uint64 (x : tick_t) :
  is_tick x -> Prim2SF (of_uint64 x) = binary_normalize prec emax x 0 false.
Proof.
  intros [Hlo Hhi]. unfold of_uint64.
  apply Prim2SF_SF2Prim.
  destruct x as [|p|p]; [reflexivity| |lia].
  destruct (Binary64.binary_normalize_uint64 p Hhi) as (m & e & -> & Hb).
  exact Hb.
Qed.

(** The conversion never yields a NaN, an infinity or a negative number. *)
Lemma of_uint64_finite (x : tick_t) :
  is_tick x ->
  Prim2SF (of_uint64 x) = S754_zero false \/
  exists m e, Prim2SF (of_uint64 x) = S754_finite false m e.
Proof.
  intros Hx. rewrite (Prim2SF_of_uint64 x Hx).
  destruct Hx as [Hlo Hhi].
  destruct x as [|p|p]; [left; reflexivity| |lia].
  destruct (Binary64.binary_normalize_uint64 p Hhi) as (m & e & -> & _).
  right. exists m, e. reflexivity.
Qed.

Lemma of_uint64_mul_zero (x : tick_t) :
  is_tick x -> (of_uint64 x * 0)%float = 0%float.
Proof.
  intros Hx. apply Prim2SF_inj. rewrite FloatAxioms.mul_spec.
  change (Prim2SF 0) with (S754_zero false).
  destruct (of_uint64_finite x Hx) as [-> | (m & e & ->)]; reflexivity.
Qed.

(** Below 2^63 the conversion is the primitive one of Rocq's floats. *)
Lemma of_uint64_of_uint63 (x : tick_t) :
  0 <= x < 2 ^ 63 -> of_uint64 x = PrimFloat.of_uint63 (Uint63.of_Z x).
Proof.
  intros Hx. unfold of_uint64.
  rewrite <- (SF2Prim_Prim2SF (PrimFloat.of_uint63 (Uint63.of_Z x))).
  rewrite of_uint63_spec, Uint63.of_Z_spec.
  rewrite Z.mod_small; [reflexivity|].
  change wB with (2 ^ 63). exact Hx.
Qed.

(** ** The library on an arbitrary platform *)

(** Unfold the library functions and the monad down to tuples. *)
Tactic Notation "run" :=
  unfold timer_lib_initialize, timer_lib_shutdown, timer_current_in_ticks,
    timer_ticks_per_second, timer_elapsed, timer_elapsed_ticks,
    timer_ticks_to_seconds, timer_system_in_millisecond,
    timer_system_in_microsecond, timer_system_in_nanosecond,
    timer_elapsed_from_lastCall, clock_gettime, bind, ret,
    get_freq, get_oofreq, get_mark, set_freq, set_oofreq, set_mark,
    result, final, events.

Tactic Notation "run" "in" hyp(H) :=
  unfold timer_lib_initialize, clock_gettime, bind, ret,
    get_freq, set_freq, set_oofreq, result in H.

Section PosixFacts.

Variable clock : platform.

Lemma timer_system_in_nanosecond_result (s : state) :
  result (timer_system_in_nanosecond clock s)
  = u64 (u64 (tv_sec (next_reading clock CLOCK_REALTIME s)) * 1000000000).
Proof. reflexivity. Qed.

Lemma timer_system_in_microsecond_result (s : state) :
  result (timer_system_in_microsecond clock s)
  = u64 (u64 (u64 (tv_sec (next_reading clock CLOCK_REALTIME s)) * 1000000)
         + u64 (tv_nsec (next_reading clock CLOCK_REALTIME s)) / 1000).
Proof. reflexivity. Qed.

(** Only a successful [timer_lib_initialize] stores to the frequency or to
    its reciprocal. *)
Lemma after_frame (c : call) (s : state) :
  init_succeeds clock c s = false ->
  timerlib_freq (after clock c s) = timerlib_freq s /\
  timerlib_oofreq (after clock c s) = timerlib_oofreq s.
Proof.
  destruct c; cbn [after init_succeeds]; intros Hc; run; run in Hc;
    try (cbn; split; reflexivity).
  - destruct (fst (clock CLOCK_MONOTONIC (clock_calls s) ts_zero) =? 0);
      cbn in *; [discriminate | split; reflexivity].
  - destruct (0 =? last_mark_ticks s); cbn; split; reflexivity.
Qed.

Lemma after_init (c : call) (s : state) :
  init_succeeds clock c s = true ->
  timerlib_freq (after clock c s) = 1000000000 /\
  timerlib_oofreq (after clock c s) = (1 / of_uint64 1000000000%Z)%float.
Proof.
  destruct c; cbn [after init_succeeds]; try discriminate.
  intros Hc; run; run in Hc.
  destruct (fst (clock CLOCK_MONOTONIC (clock_calls s) ts_zero) =? 0);
    cbn in *; [split; reflexivity | discriminate].
Qed.

Lemma never_initialized_inv (s : state) :
  never_initialized clock s ->
  timerlib_oofreq s = 0%float /\ timerlib_freq s = 1000000000.
Proof.
  induction 1 as [|s c Hs [IHo IHf] Hc].
  - split; reflexivity.
  - destruct (after_frame c s Hc) as [-> ->]. split; assumption.
Qed.

Lemma initialized_inv (s : state) :
  initialized clock s ->
  timerlib_freq s = 1000000000 /\
  timerlib_oofreq s = (1 / of_uint64 1000000000%Z)%float.
Proof.
  induction 1 as [s c Hc | s c Hs IH].
  - apply after_init. exact Hc.
  - destruct (init_succeeds clock c s) eqn:Hc.
    + apply after_init. exact Hc.
    + destruct (after_frame c s Hc) as [-> ->]. exact IH.
Qed.

(** C2 (as amended): a call of [timer_elapsed_from_lastCall] stores to
    [last_mark_ticks] once when the mark is set, namely the tick reading of
    the call, and twice when it is 0: first the initial tick reading, then,
    after a second clock call, the final one; either way the mark ends at the
    last tick reading of the call, which is at least the previous mark
    whenever that reading is. *)
Theorem elapsed_from_lastCall_mark_writes (s : state) :
  let r := timer_elapsed_from_lastCall clock s in
  let n := clock_calls s in
  let now := reading_at clock (clock_calls (final r) - 1) in
  events r
  = (if 0 =? last_mark_ticks s
     then [ev_clock_gettime CLOCK_MONOTONIC; ev_store_mark (reading_at clock n);
           ev_clock_gettime CLOCK_MONOTONIC;
           ev_store_mark (reading_at clock (S n))]
     else [ev_clock_gettime CLOCK_MONOTONIC;
           ev_store_mark (reading_at clock n)]) /\
  mark_writes (events r) = (if 0 =? last_mark_ticks s then 2%nat else 1%nat) /\
  now = (if 0 =? last_mark_ticks s
         then reading_at clock (S n) else reading_at clock n) /\
  last_mark_ticks (final r) = now /\
  (last_mark_ticks s <= now -> last_mark_ticks s <= last_mark_ticks (final r)).
Proof.
  run. unfold reading_at.
  destruct (0 =? last_mark_ticks s); cbn; rewrite ?Nat.sub_0_r;
    repeat split; auto.
Qed.

(** C3: with the mark set, [timer_elapsed_from_lastCall] reads the clock
    once, returns [(double)(now - mark) / (double)timerlib_freq] and leaves
    the mark at [now]; with the mark unset (0) it reads the clock, stores that
    reading as the mark, reads the clock again and returns the seconds between
    the two readings, leaving the mark at the second. *)
Theorem elapsed_from_lastCall_spec (s : state) :
  let r := timer_elapsed_from_lastCall clock s in
  let n := clock_calls s in
  if 0 =? last_mark_ticks s then
    let first := reading_at clock n in
    let now := reading_at clock (S n) in
    events r = [ev_clock_gettime CLOCK_MONOTONIC; ev_store_mark first;
                ev_clock_gettime CLOCK_MONOTONIC; ev_store_mark now] /\
    result r = (of_uint64 (u64 (now - first)) / of_uint64 (timerlib_freq s))%float /\
    last_mark_ticks (final r) = now
  else
    let now := reading_at clock n in
    events r = [ev_clock_gettime CLOCK_MONOTONIC; ev_store_mark now] /\
    result r = (of_uint64 (u64 (now - last_mark_ticks s))
                / of_uint64 (timerlib_freq s))%float /\
    last_mark_ticks (final r) = now.
Proof.
  run. unfold reading_at.
  destruct (0 =? last_mark_ticks s); cbn; repeat split; reflexivity.
Qed.

(** The POSIX branch of [timer_lib_initialize] returns -1 exactly when
    [clock_gettime(CLOCK_MONOTONIC)] returns non-zero, and then stores
    nothing: frequency, reciprocal and mark are as before, so a reciprocal
    that was 0 remains 0; otherwise it returns 0, the frequency is 1000000000
    and the reciprocal is [1.0 / (double)timerlib_freq]. *)
Theorem timer_lib_initialize_spec (s : state) :
  let r := timer_lib_initialize clock s in
  (result r = -1 <-> next_rc clock CLOCK_MONOTONIC s <> 0) /\
  if next_rc clock CLOCK_MONOTONIC s =? 0 then
    result r = 0 /\
    timerlib_freq (final r) = 1000000000 /\
    timerlib_oofreq (final r) = (1 / of_uint64 (timerlib_freq (final r)))%float /\
    last_mark_ticks (final r) = last_mark_ticks s
  else
    result r = -1 /\
    events r = [ev_clock_gettime CLOCK_MONOTONIC] /\
    timerlib_freq (final r) = timerlib_freq s /\
    timerlib_oofreq (final r) = timerlib_oofreq s /\
    last_mark_ticks (final r) = last_mark_ticks s /\
    (timerlib_oofreq s = 0%float -> timerlib_oofreq (final r) = 0%float).
Proof.
  run. unfold next_rc.
  destruct (fst (clock CLOCK_MONOTONIC (clock_calls s) ts_zero) =? 0) eqn:E;
    cbn.
  - apply Z.eqb_eq in E. repeat split; try reflexivity; intros; try lia.
  - apply Z.eqb_neq in E. repeat split; try reflexivity; intros; assumption.
Qed.

(** C5: [timer_elapsed_ticks since] returns [now - since] modulo 2^64, where
    [now] is the tick reading of the call: the plain difference when
    [since <= now], and the difference plus 2^64 (a tick value, not a
    negative number) when [since > now]. *)
Theorem timer_elapsed_ticks_spec (s : state) (since : tick_t) :
  is_tick since ->
  let now := timespec_to_ticks (next_reading clock CLOCK_MONOTONIC s) in
  let dt := result (timer_elapsed_ticks clock since s) in
  dt = (now - since) mod 2 ^ 64 /\
  is_tick dt /\
  (since <= now -> dt = now - since) /\
  (now < since -> dt = now - since + 2 ^ 64).
Proof.
  intros Hs now dt.
  assert (Hn : is_tick now) by apply u64_is_tick.
  assert (Hd : dt = (now - since) mod 2 ^ 64) by reflexivity.
  unfold is_tick in *.
  split; [exact Hd|]. split; [rewrite Hd; apply Z.mod_pos_bound; lia|].
  split; intros H; rewrite Hd.
  - apply Z.mod_small. lia.
  - symmetry. apply Z.mod_unique with (-1); lia.
Qed.

(** C6: for the same [since] and the same clock reading,
    [timer_ticks_to_seconds (timer_elapsed_ticks since)] and
    [timer_elapsed since] are the same double (and leave the same state):
    both are [(double)dt * timerlib_oofreq] for the same tick delta. *)
Theorem ticks_to_seconds_elapsed_ticks (s : state) (since : tick_t) :
  let r := timer_elapsed_ticks clock since s in
  result (timer_ticks_to_seconds (result r) (final r))
    = result (timer_elapsed clock since s) /\
  final (timer_ticks_to_seconds (result r) (final r))
    = final (timer_elapsed clock since s).
Proof. split; reflexivity. Qed.

(** C7: in every state reached after a successful [timer_lib_initialize],
    [timer_ticks_to_seconds (timer_ticks_per_second ())] is exactly 1.0:
    in binary64, 1e9 times the rounded reciprocal of 1e9 rounds to one. *)
Theorem ticks_per_second_to_seconds (s : state) :
  initialized clock s ->
  timerlib_oofreq s = (1 / of_uint64 (timerlib_freq s))%float /\
  result (timer_ticks_to_seconds (result (timer_ticks_per_second s)) s)
    = 1%float.
Proof.
  intros Hs. destruct (initialized_inv s Hs) as [Hf Ho].
  run. cbn. rewrite Ho, Hf. split; vm_compute; reflexivity.
Qed.

(** On POSIX, as long as [timer_lib_initialize] has not succeeded, the
    stored reciprocal is 0 and [timer_ticks_to_seconds] and [timer_elapsed]
    return 0.0 for every argument, although [timer_ticks_per_second] already
    returns 1000000000. *)
Theorem uninitialized_seconds_are_zero (s : state) (x : tick_t) :
  never_initialized clock s ->
  is_tick x ->
  timerlib_oofreq s = 0%float /\
  result (timer_ticks_to_seconds x s) = 0%float /\
  result (timer_elapsed clock x s) = 0%float /\
  result (timer_ticks_per_second s) = 1000000000.
Proof.
  intros Hs Hx.
  destruct (never_initialized_inv s Hs) as [Ho Hf].
  run. cbn. rewrite Ho, Hf.
  repeat split; try reflexivity.
  - apply of_uint64_mul_zero. exact Hx.
  - apply of_uint64_mul_zero. apply u64_is_tick.
Qed.

(** C10: after a call of [timer_elapsed_from_lastCall] the mark is the last
    tick reading of that call; when that reading is 0 the mark is 0, and the
    next call runs the first-call path: it reads the clock twice, stores its
    own first reading as the mark and measures from that reading, not from
    the previous call. *)
Theorem elapsed_from_lastCall_zero_reading (s : state) :
  let r := timer_elapsed_from_lastCall clock s in
  let n := (clock_calls (final r) - 1)%nat in
  last_mark_ticks (final r) = reading_at clock n /\
  (reading_at clock n = 0 ->
   let r' := timer_elapsed_from_lastCall clock (final r) in
   let first := reading_at clock (S n) in
   let now := reading_at clock (S (S n)) in
   last_mark_ticks (final r) = 0 /\
   events r' = [ev_clock_gettime CLOCK_MONOTONIC; ev_store_mark first;
                ev_clock_gettime CLOCK_MONOTONIC; ev_store_mark now] /\
   result r' = (of_uint64 (u64 (now - first)) / of_uint64 (timerlib_freq s))%float).
Proof.
  run. unfold reading_at.
  destruct (0 =? last_mark_ticks s); cbn; rewrite ?Nat.sub_0_r;
    (split; [reflexivity|]); intros ->; cbn; repeat split; reflexivity.
Qed.

End PosixFacts.

(** C8: [timer_lib_shutdown] returns nothing, stores nothing and leaves
    [timerlib_freq], [timerlib_oofreq] and [last_mark_ticks] as they were. *)
Theorem timer_lib_shutdown_no_effect (s : state) :
  let r := timer_lib_shutdown s in
  result r = tt /\
  events r = [] /\
  final r = s /\
  timerlib_freq (final r) = timerlib_freq s /\
  timerlib_oofreq (final r) = timerlib_oofreq s /\
  last_mark_ticks (final r) = last_mark_ticks s.
Proof. repeat split. Qed.

(** ** The library on concrete platforms *)

(** C1: on a realtime reading of 1 s and 999999999 ns,
    [timer_system_in_nanosecond] returns 1000000000, not 1999999999: the
    [tv_nsec] part is not added, while [timer_system_in_microsecond] and
    [timer_system_in_millisecond] on the same reading do add theirs. *)
Theorem timer_system_in_nanosecond_drops_tv_nsec :
  let ts := {| tv_sec := 1; tv_nsec := 999999999 |} in
  let clock := const_clock 0 ts in
  result (timer_system_in_nanosecond clock initial_state) = 1000000000 /\
  result (timer_system_in_nanosecond clock initial_state)
    <> tv_sec ts * 10 ^ 9 + tv_nsec ts /\
  result (timer_system_in_microsecond clock initial_state) = 1999999 /\
  result (timer_system_in_millisecond clock initial_state) = 1999.
Proof. vm_compute. repeat split; discriminate. Qed.

(** C2 as stated fails on the first call: with the mark unset,
    [timer_elapsed_from_lastCall] stores to [last_mark_ticks] twice. *)
Lemma first_call_stores_mark_twice :
  let clock := const_clock 0 {| tv_sec := 7; tv_nsec := 0 |} in
  let r := timer_elapsed_from_lastCall clock initial_state in
  events r = [ev_clock_gettime CLOCK_MONOTONIC; ev_store_mark 7000000000;
              ev_clock_gettime CLOCK_MONOTONIC; ev_store_mark 7000000000] /\
  mark_writes (events r) = 2%nat /\
  mark_writes (events r) <> 1%nat.
Proof. vm_compute. repeat split; discriminate. Qed.

(** A first call on a clock that reads 4 ns, then 9 ns. *)
Lemma elapsed_from_lastCall_mark_writes_witness :
  let clock := list_clock [ {| tv_sec := 0; tv_nsec := 4 |};
                            {| tv_sec := 0; tv_nsec := 9 |} ] in
  let r := timer_elapsed_from_lastCall clock initial_state in
  events r = [ev_clock_gettime CLOCK_MONOTONIC; ev_store_mark 4;
              ev_clock_gettime CLOCK_MONOTONIC; ev_store_mark 9] /\
  mark_writes (events r) = 2%nat /\
  last_mark_ticks (final r) = 9 /\
  0 <= last_mark_ticks (final r).
Proof.
  intros clock r.
  destruct (elapsed_from_lastCall_mark_writes clock initial_state)
    as (H0 & H1 & _ & H2 & H3).
  split; [exact H0|]. split; [exact H1|]. split; [exact H2|].
  apply H3. vm_compute. discriminate.
Defined.

(** The clock is unavailable at the first initialisation. *)
Lemma timer_lib_initialize_spec_witness :
  let clock := const_clock (-1) ts_zero in
  let r := timer_lib_initialize clock initial_state in
  timerlib_oofreq initial_state = 0%float /\
  result r = -1 /\
  timerlib_freq (final r) = 1000000000 /\
  timerlib_oofreq (final r) = 0%float.
Proof.
  intros clock r.
  destruct (timer_lib_initialize_spec clock initial_state)
    as (_ & Hres & _ & Hfreq & _ & _ & Hzero).
  split; [reflexivity|]. split; [exact Hres|]. split; [exact Hfreq|].
  apply Hzero. reflexivity.
Defined.

Lemma timer_elapsed_ticks_spec_witness :
  let clock := const_clock 0 {| tv_sec := 2; tv_nsec := 5 |} in
  is_tick 2000000007 /\
  result (timer_elapsed_ticks clock 2000000007 initial_state)
    = 2000000005 - 2000000007 + 2 ^ 64.
Proof.
  intros clock.
  assert (H : is_tick 2000000007) by (unfold is_tick; lia).
  split; [exact H|].
  destruct (timer_elapsed_ticks_spec clock initial_state 2000000007 H)
    as (_ & _ & _ & Hwrap).
  apply Hwrap. vm_compute. reflexivity.
Defined.

(** A process that has initialised the library and measured twice. *)
Lemma ticks_per_second_to_seconds_witness :
  let clock := const_clock 0 {| tv_sec := 12; tv_nsec := 34 |} in
  let s := after clock call_elapsed_from_lastCall
             (after clock (call_elapsed 7)
                (after clock call_initialize initial_state)) in
  initialized clock s /\
  result (timer_ticks_to_seconds (result (timer_ticks_per_second s)) s)
    = 1%float.
Proof.
  intros clock s.
  assert (Hs : initialized clock s).
  { apply in_call, in_call, in_first. reflexivity. }
  split; [exact Hs|].
  exact (proj2 (ticks_per_second_to_seconds clock s Hs)).
Defined.

(** A process whose clock is unavailable: the initialisation has failed, and
    [timer_elapsed_from_lastCall] has been called once since. *)
Lemma uninitialized_seconds_are_zero_witness :
  let clock := const_clock (-1) ts_zero in
  let s := after clock call_elapsed_from_lastCall
             (after clock call_initialize initial_state) in
  never_initialized clock s /\
  is_tick 123456789 /\
  result (timer_ticks_to_seconds 123456789 s) = 0%float /\
  result (timer_elapsed clock 123456789 s) = 0%float /\
  result (timer_ticks_per_second s) = 1000000000.
Proof.
  intros clock s.
  assert (Hs : never_initialized clock s).
  { apply ni_call; [apply ni_call; [apply ni_start | reflexivity] | reflexivity]. }
  assert (Hx : is_tick 123456789) by (unfold is_tick; lia).
  split; [exact Hs|]. split; [exact Hx|].
  exact (proj2 (uninitialized_seconds_are_zero clock s 123456789 Hs Hx)).
Defined.

(** The clock reads 1 s, then 0, then 2 s, then 5 s: the first call leaves
    the mark at 0, and the second returns the 3 s between its own two
    readings. *)
Lemma elapsed_from_lastCall_zero_reading_witness :
  let clock := list_clock [ {| tv_sec := 1; tv_nsec := 0 |}; ts_zero;
                            {| tv_sec := 2; tv_nsec := 0 |};
                            {| tv_sec := 5; tv_nsec := 0 |} ] in
  let r := timer_elapsed_from_lastCall clock (marked_state 0) in
  let r' := timer_elapsed_from_lastCall clock (final r) in
  reading_at clock 1 = 0 /\
  last_mark_ticks (final r) = 0 /\
  events r' = [ev_clock_gettime CLOCK_MONOTONIC; ev_store_mark 2000000000;
               ev_clock_gettime CLOCK_MONOTONIC; ev_store_mark 5000000000] /\
  result r' = 3%float.
Proof.
  intros clock r r'.
  assert (H : reading_at clock 1 = 0) by reflexivity.
  split; [exact H|].
  destruct (elapsed_from_lastCall_zero_reading clock (marked_state 0))
    as [_ Hnext].
  destruct (Hnext H) as (Hm & Hev & Hres).
  split; [exact Hm|]. split; [exact Hev|].
  unfold r', r. rewrite Hres. vm_compute. reflexivity.
Defined.

(** ** Further properties of the POSIX backend *)

Lemma timespec_to_ticks_exact (ts : timespec) :
  normalized ts -> nanoseconds ts < 2 ^ 64 ->
  timespec_to_ticks ts = nanoseconds ts.
Proof.
  unfold normalized, nanoseconds, timespec_to_ticks, u64.
  intros [Hs Hn] Hlt.
  rewrite (Z.mod_small (tv_sec ts)) by lia.
  rewrite (Z.mod_small (tv_nsec ts)) by lia.
  rewrite (Z.mod_small (tv_sec ts * 1000000000)) by lia.
  apply Z.mod_small. lia.
Qed.

Lemma timespec_to_ticks_is_tick (ts : timespec) : is_tick (timespec_to_ticks ts).
Proof. apply u64_is_tick. Qed.

Section MoreFacts.

Variable clock : platform.

(** X1: on a well-formed monotonic reading that fits 64 bits,
    [timer_current_in_ticks] returns the reading in nanoseconds,
    [tv_sec * 10^9 + tv_nsec], without wrap-around. *)
Theorem timer_current_in_ticks_exact (s : state) :
  let ts := next_reading clock CLOCK_MONOTONIC s in
  normalized ts -> nanoseconds ts < 2 ^ 64 ->
  result (timer_current_in_ticks clock s) = nanoseconds ts.
Proof. intros ts Hn Hlt. exact (timespec_to_ticks_exact ts Hn Hlt). Qed.

(** X2: when [timer_current_in_ticks] is followed by [timer_elapsed_ticks]
    on its result, and the two well-formed readings do not go backwards, the
    second tick value is at least the first and the delta is the exact
    number of nanoseconds between the readings. *)
Theorem elapsed_ticks_since_reading (s : state) :
  let r1 := timer_current_in_ticks clock s in
  let r2 := timer_elapsed_ticks clock (result r1) (final r1) in
  let ts1 := snd (clock CLOCK_MONOTONIC (clock_calls s) ts_zero) in
  let ts2 := snd (clock CLOCK_MONOTONIC (S (clock_calls s)) ts_zero) in
  normalized ts1 -> normalized ts2 ->
  nanoseconds ts1 <= nanoseconds ts2 -> nanoseconds ts2 < 2 ^ 64 ->
  result r1 <= reading_at clock (S (clock_calls s)) /\
  result r2 = nanoseconds ts2 - nanoseconds ts1.
Proof.
  intros r1 r2 ts1 ts2 H1 H2 Hle Hlt.
  assert (E1 : result r1 = nanoseconds ts1)
    by (apply timespec_to_ticks_exact; [assumption | lia]).
  assert (E2 : reading_at clock (S (clock_calls s)) = nanoseconds ts2)
    by (apply timespec_to_ticks_exact; assumption).
  assert (E : result r2 = u64 (reading_at clock (S (clock_calls s)) - result r1))
    by reflexivity.
  rewrite E, E1, E2. split; [exact Hle|].
  unfold u64. apply Z.mod_small.
  unfold normalized, nanoseconds in *. lia.
Qed.

(** X3: adding the delta of [timer_elapsed_ticks since] back to [since], in
    64-bit arithmetic, gives the tick reading of the call, whether or not
    the subtraction wrapped. *)
Theorem elapsed_ticks_add_back (s : state) (since : tick_t) :
  u64 (since + result (timer_elapsed_ticks clock since s))
  = timespec_to_ticks (next_reading clock CLOCK_MONOTONIC s).
Proof.
  assert (E : result (timer_elapsed_ticks clock since s)
              = (timespec_to_ticks (next_reading clock CLOCK_MONOTONIC s) - since)
                mod 2 ^ 64) by reflexivity.
  rewrite E. unfold u64 at 1.
  rewrite Z.add_mod_idemp_r by lia.
  replace (since + (timespec_to_ticks (next_reading clock CLOCK_MONOTONIC s) - since))
    with (timespec_to_ticks (next_reading clock CLOCK_MONOTONIC s)) by lia.
  apply Z.mod_small. apply timespec_to_ticks_is_tick.
Qed.

Lemma millisecond_floor (s : state) :
  let ts := next_reading clock CLOCK_REALTIME s in
  normalized ts -> nanoseconds ts / 1000000 < 2 ^ 64 ->
  result (timer_system_in_millisecond clock s) = nanoseconds ts / 1000000.
Proof.
  intros ts [Hs Hn] Hlt.
  assert (E : nanoseconds ts / 1000000 = tv_sec ts * 1000 + tv_nsec ts / 1000000).
  { unfold nanoseconds.
    replace (tv_sec ts * 1000000000) with (tv_sec ts * 1000 * 1000000) by lia.
    apply Z.div_add_l. lia. }
  assert (Hq : 0 <= tv_nsec ts / 1000000 < 1000).
  { split; [apply Z.div_pos; lia | apply Z.div_lt_upper_bound; lia]. }
  change (result (timer_system_in_millisecond clock s))
    with (u64 (u64 (u64 (tv_sec ts) * 1000) + u64 (tv_nsec ts) / 1000000)).
  rewrite E in *. unfold u64.
  rewrite (Z.mod_small (tv_sec ts)) by lia.
  rewrite (Z.mod_small (tv_nsec ts)) by lia.
  rewrite (Z.mod_small (tv_sec ts * 1000)) by lia.
  apply Z.mod_small. lia.
Qed.

(** X4: on a well-formed realtime reading, [timer_system_in_millisecond]
    returns the reading in whole milliseconds, rounded down, as long as that
    fits 64 bits. *)
Theorem timer_system_in_millisecond_floor (s : state) :
  let ts := next_reading clock CLOCK_REALTIME s in
  normalized ts -> nanoseconds ts / 1000000 < 2 ^ 64 ->
  result (timer_system_in_millisecond clock s) = nanoseconds ts / 1000000.
Proof. exact (millisecond_floor s). Qed.

(** X5: on a well-formed realtime reading, [timer_system_in_microsecond]
    returns the reading in whole microseconds, rounded down, as long as that
    fits 64 bits; dividing it by 1000 gives what
    [timer_system_in_millisecond] returns on the same reading. *)
Theorem timer_system_in_microsecond_floor (s : state) :
  let ts := next_reading clock CLOCK_REALTIME s in
  normalized ts -> nanoseconds ts / 1000 < 2 ^ 64 ->
  result (timer_system_in_microsecond clock s) = nanoseconds ts / 1000 /\
  result (timer_system_in_microsecond clock s) / 1000
    = result (timer_system_in_millisecond clock s).
Proof.
  intros ts [Hs Hn] Hlt.
  assert (E : nanoseconds ts / 1000 = tv_sec ts * 1000000 + tv_nsec ts / 1000).
  { unfold nanoseconds.
    replace (tv_sec ts * 1000000000) with (tv_sec ts * 1000000 * 1000) by lia.
    apply Z.div_add_l. lia. }
  assert (Hq : 0 <= tv_nsec ts / 1000 < 1000000).
  { split; [apply Z.div_pos; lia | apply Z.div_lt_upper_bound; lia]. }
  assert (Hus : result (timer_system_in_microsecond clock s) = nanoseconds ts / 1000).
  { change (result (timer_system_in_microsecond clock s))
      with (u64 (u64 (u64 (tv_sec ts) * 1000000) + u64 (tv_nsec ts) / 1000)).
    rewrite E in *. unfold u64.
    rewrite (Z.mod_small (tv_sec ts)) by lia.
    rewrite (Z.mod_small (tv_nsec ts)) by lia.
    rewrite (Z.mod_small (tv_sec ts * 1000000)) by lia.
    apply Z.mod_small. lia. }
  split; [exact Hus|].
  assert (Hns : 0 <= nanoseconds ts) by (unfold nanoseconds; lia).
  rewrite Hus, (millisecond_floor s (conj Hs Hn)).
  - rewrite Z.div_div by lia. reflexivity.
  - fold ts. apply Z.le_lt_trans with (nanoseconds ts / 1000); [|exact Hlt].
    replace 1000000 with (1000 * 1000) by reflexivity.
    rewrite <- Z.div_div by lia.
    apply Z.div_le_upper_bound; [lia|].
    assert (0 <= nanoseconds ts / 1000) by (apply Z.div_pos; lia). lia.
Qed.

(** X6: when [clock_gettime] leaves the struct as it was handed in (as a
    failing call does), no error is reported: every reader returns 0, and
    [timer_elapsed_ticks since] returns [2^64 - since] for a non-zero
    [since]. *)
Theorem readers_on_untouched_struct (s : state) (since : tick_t) :
  (forall id, next_reading clock id s = ts_zero) ->
  is_tick since -> 0 < since ->
  result (timer_current_in_ticks clock s) = 0 /\
  result (timer_system_in_millisecond clock s) = 0 /\
  result (timer_system_in_microsecond clock s) = 0 /\
  result (timer_system_in_nanosecond clock s) = 0 /\
  result (timer_elapsed_ticks clock since s) = 2 ^ 64 - since.
Proof.
  intros Hz Hs Hpos.
  pose proof (Hz CLOCK_MONOTONIC) as Hm. pose proof (Hz CLOCK_REALTIME) as Hr.
  assert (E1 : result (timer_current_in_ticks clock s)
               = timespec_to_ticks (next_reading clock CLOCK_MONOTONIC s))
    by reflexivity.
  assert (E2 : result (timer_system_in_millisecond clock s)
               = u64 (u64 (u64 (tv_sec (next_reading clock CLOCK_REALTIME s)) * 1000)
                      + u64 (tv_nsec (next_reading clock CLOCK_REALTIME s)) / 1000000))
    by reflexivity.
  assert (E3 : result (timer_system_in_microsecond clock s)
               = u64 (u64 (u64 (tv_sec (next_reading clock CLOCK_REALTIME s)) * 1000000)
                      + u64 (tv_nsec (next_reading clock CLOCK_REALTIME s)) / 1000))
    by reflexivity.
  assert (E4 : result (timer_system_in_nanosecond clock s)
               = u64 (u64 (tv_sec (next_reading clock CLOCK_REALTIME s)) * 1000000000))
    by reflexivity.
  assert (E5 : result (timer_elapsed_ticks clock since s)
               = u64 (timespec_to_ticks (next_reading clock CLOCK_MONOTONIC s) - since))
    by reflexivity.
  rewrite E1, E2, E3, E4, E5, Hm, Hr.
  replace (timespec_to_ticks ts_zero) with 0 by (vm_compute; reflexivity).
  do 4 (split; [vm_compute; reflexivity|]).
  unfold u64, is_tick in *. symmetry.
  apply Z.mod_unique with (-1); lia.
Qed.

(** X7: a call that is neither a successful [timer_lib_initialize] nor
    [timer_elapsed_from_lastCall] stores to none of the file-scope
    variables: frequency, reciprocal and mark are as before. *)
Theorem no_store_outside_initialize_and_lastCall (c : call) (s : state) :
  init_succeeds clock c s = false ->
  c <> call_elapsed_from_lastCall ->
  existsb is_store (trace clock c s) = false /\
  timerlib_freq (after clock c s) = timerlib_freq s /\
  timerlib_oofreq (after clock c s) = timerlib_oofreq s /\
  last_mark_ticks (after clock c s) = last_mark_ticks s.
Proof.
  destruct c; cbn [after trace init_succeeds]; intros Hc Hne;
    try congruence; run; run in Hc; try (cbn; repeat split; reflexivity).
  destruct (fst (clock CLOCK_MONOTONIC (clock_calls s) ts_zero) =? 0);
    cbn in *; [discriminate | repeat split; reflexivity].
Qed.

(** The frequency never changes, the reciprocal is 0 or the rounded
    reciprocal of 10^9, and the mark is a tick value. *)
Lemma reachable_inv (s : state) :
  reachable clock s ->
  timerlib_freq s = 1000000000 /\
  (timerlib_oofreq s = 0%float \/
   timerlib_oofreq s = (1 / of_uint64 1000000000%Z)%float) /\
  is_tick (last_mark_ticks s).
Proof.
  induction 1 as [|s c Hs (IHf & IHo & IHm)].
  - split; [reflexivity|]. split; [left; reflexivity|].
    unfold is_tick. cbn [last_mark_ticks initial_state]. lia.
  - assert (Hfo : timerlib_freq (after clock c s) = 1000000000 /\
                  (timerlib_oofreq (after clock c s) = 0%float \/
                   timerlib_oofreq (after clock c s)
                   = (1 / of_uint64 1000000000%Z)%float)).
    { destruct (init_succeeds clock c s) eqn:Hc.
      - destruct (after_init clock c s Hc) as [-> ->]. auto.
      - destruct (after_frame clock c s Hc) as [-> ->]. auto. }
    destruct Hfo as [Hf Ho]. split; [exact Hf|]. split; [exact Ho|].
    destruct c; cbn [after]; run; try exact IHm.
    + destruct (negb (fst (clock CLOCK_MONOTONIC (clock_calls s) ts_zero) =? 0));
        cbn; exact IHm.
    + destruct (0 =? last_mark_ticks s); cbn; apply u64_is_tick.
Qed.

(** X8: in every state a process can reach, whether or not an
    initialisation was tried, failed or succeeded,
    [timer_ticks_per_second] returns 1000000000, and the stored reciprocal
    is either 0 or [1.0 / (double)timerlib_freq]. *)
Theorem frequency_is_constant (s : state) :
  reachable clock s ->
  result (timer_ticks_per_second s) = 1000000000 /\
  (timerlib_oofreq s = 0%float \/
   timerlib_oofreq s = (1 / of_uint64 (timerlib_freq s))%float).
Proof.
  intros Hs. destruct (reachable_inv s Hs) as (Hf & Ho & _).
  split; [exact Hf|]. rewrite Hf. exact Ho.
Qed.

End MoreFacts.

(** ** Products and quotients of converted integers

    The shifts of [binary_round_aux] once more, now for any rounding
    location and with the exponent and the width of the result, as the
    multiplication and the division of binary64 numbers need them. *)

Module Rounding.

Lemma digits2_pos_ge (p : positive) (k : Z) :
  2 ^ (k - 1) <= Z.pos p -> k <= Z.pos (digits2_pos p).
Proof.
  intros Hk. destruct (Binary64.digits2_pos_bounds p) as [_ Dhi].
  destruct (Z.le_gt_cases k 0) as [|Hpos]; [lia|].
  assert (k - 1 < Z.pos (digits2_pos p))
    by (apply (Z.pow_lt_mono_r_iff 2); lia).
  lia.
Qed.

Lemma digits2_pos_le (p : positive) (k : Z) :
  0 <= k -> Z.pos p < 2 ^ k -> Z.pos (digits2_pos p) <= k.
Proof.
  intros Hk Hp. destruct (Binary64.digits2_pos_bounds p) as [Dlo _].
  assert (Z.pos (digits2_pos p) - 1 < k)
    by (apply (Z.pow_lt_mono_r_iff 2); lia).
  lia.
Qed.

Lemma shr_record_of_loc_m (m : Z) (l : location) :
  shr_m (shr_record_of_loc m l) = m.
Proof. destruct l as [|[| |]]; reflexivity. Qed.

Lemma shr_fexp_first (p : positive) (ex : Z) (lx : location) :
  53 <= Z.pos (digits2_pos p) -> -1074 <= ex ->
  exists mrs,
    shr_fexp prec emax (Z.pos p) ex lx
      = (mrs, ex + (Z.pos (digits2_pos p) - 53)) /\
    2 ^ 52 <= shr_m mrs < 2 ^ 53.
Proof.
  intros Hk Hex.
  destruct (Binary64.digits2_pos_bounds p) as [Dlo Dhi].
  unfold shr_fexp. cbn [Zdigits2].
  rewrite Binary64.fexp_shift by assumption.
  destruct (Z.pos (digits2_pos p) - 53) as [|n|n] eqn:En; try lia.
  - cbn [shr]. eexists; split; [f_equal; lia|].
    rewrite shr_record_of_loc_m.
    replace (Z.pos (digits2_pos p)) with 53 in * by lia.
    change (53 - 1) with 52 in Dlo. lia.
  - cbn [shr]. eexists; split; [reflexivity|].
    rewrite Binary64.iter_shr_1_m by (rewrite shr_record_of_loc_m; lia).
    rewrite shr_record_of_loc_m.
    assert (Hp : 2 ^ Z.pos (digits2_pos p) = 2 ^ 53 * 2 ^ Z.pos n).
    { rewrite <- Z.pow_add_r by lia. f_equal; lia. }
    assert (Hp' : 2 ^ (Z.pos (digits2_pos p) - 1) = 2 ^ 52 * 2 ^ Z.pos n).
    { rewrite <- Z.pow_add_r by lia. f_equal; lia. }
    assert (0 < 2 ^ Z.pos n) by (apply Z.pow_pos_nonneg; lia).
    split.
    + apply Z.div_le_lower_bound; lia.
    + apply Z.div_lt_upper_bound; lia.
Qed.

Lemma shr_fexp_second (sx : bool) (m : Z) (e : Z) :
  2 ^ 52 <= m <= 2 ^ 53 -> -1074 <= e < 971 ->
  exists q e',
    (let '(mrs, e') := shr_fexp prec emax m e loc_Exact in
     match shr_m mrs with
     | Z0 => S754_zero sx
     | Zpos q => if e' <=? emax - prec then S754_finite sx q e'
                 else S754_infinity sx
     | Zneg _ => S754_nan
     end) = S754_finite sx q e' /\
    Z.pos (digits2_pos q) = 53 /\ e <= e' <= e + 1.
Proof.
  intros Hm He.
  destruct m as [|q|q]; try (cbn in Hm; lia).
  destruct (Z.eq_dec (Z.pos q) (2 ^ 53)) as [E|E].
  - injection E as ->.
    unfold shr_fexp. cbn [Zdigits2 shr_record_of_loc].
    change (Z.pos (digits2_pos 9007199254740992)) with 54.
    rewrite Binary64.fexp_shift by lia. change (54 - 53) with 1.
    cbn [shr iter_pos shr_1 shr_m].
    exists 4503599627370496%positive, (e + 1).
    replace (e + 1 <=? emax - prec) with true
      by (symmetry; apply Z.leb_le; unfold emax, prec; lia).
    split; [reflexivity|]. split; [reflexivity | lia].
  - assert (Hd : Z.pos (digits2_pos q) = 53).
    { apply Binary64.digits2_pos_unique. change (53 - 1) with 52. lia. }
    unfold shr_fexp. cbn [Zdigits2 shr_record_of_loc].
    rewrite Hd, Binary64.fexp_shift by lia. change (53 - 53) with 0.
    cbn [shr shr_m].
    exists q, e.
    replace (e <=? emax - prec) with true
      by (symmetry; apply Z.leb_le; unfold emax, prec; lia).
    split; [reflexivity|]. split; [exact Hd | lia].
Qed.

(** Rounding a mantissa of at least 53 bits, far from overflow and
    underflow: a normal number, whose exponent is known up to the carry. *)
Lemma binary_round_aux_normal (sx : bool) (p : positive) (ex : Z) (lx : location) :
  53 <= Z.pos (digits2_pos p) -> -1074 <= ex ->
  Z.pos (digits2_pos p) + ex < 1024 ->
  exists m e,
    binary_round_aux prec emax sx (Z.pos p) ex lx = S754_finite sx m e /\
    Z.pos (digits2_pos m) = 53 /\
    ex + Z.pos (digits2_pos p) - 53 <= e <= ex + Z.pos (digits2_pos p) - 52.
Proof.
  intros Hk Hex Hmax.
  destruct (shr_fexp_first p ex lx Hk Hex) as (mrs & Hshr & Hm).
  unfold binary_round_aux. rewrite Hshr.
  pose proof (Binary64.round_nearest_even_range (shr_m mrs) (loc_of_shr_record mrs)).
  destruct (shr_fexp_second sx
              (round_nearest_even (shr_m mrs) (loc_of_shr_record mrs))
              (ex + (Z.pos (digits2_pos p) - 53)))
    as (q & e' & Hq & Hd & He); [lia | lia |].
  exists q, e'. split; [exact Hq|]. split; [exact Hd | lia].
Qed.

(** A non-zero unsigned 64-bit integer converts to a normal number between
    1 and 2^64. *)
Lemma binary_normalize_uint64_normal (p : positive) :
  Z.pos p < 2 ^ 64 ->
  exists m e,
    binary_normalize prec emax (Z.pos p) 0 false = S754_finite false m e /\
    Z.pos (digits2_pos m) = 53 /\ -52 <= e <= 12.
Proof.
  intros Hp.
  destruct (Binary64.digits2_pos_bounds p) as [Dlo Dhi].
  assert (Hk : Z.pos (digits2_pos p) <= 64) by (apply digits2_pos_le; lia).
  cbn [binary_normalize]. unfold binary_round, shl_align.
  assert (Hf : fexp prec emax (Z.pos (digits2_pos p) + 0)
               = Z.pos (digits2_pos p) - 53).
  { unfold fexp, SpecFloat.emin, prec, emax. lia. }
  rewrite Hf.
  destruct (Z.pos (digits2_pos p) - 53 - 0) as [|d|d] eqn:Ed.
  - destruct (binary_round_aux_normal false p 0 loc_Exact)
      as (m & e & H & Hd & He); [lia | lia | lia |].
    exists m, e. split; [exact H|]. split; [exact Hd | lia].
  - destruct (binary_round_aux_normal false p 0 loc_Exact)
      as (m & e & H & Hd & He); [lia | lia | lia |].
    exists m, e. split; [exact H|]. split; [exact Hd | lia].
  - assert (Hd : Z.pos (digits2_pos (Pos.iter xO p d)) = 53).
    { apply Binary64.digits2_pos_unique. rewrite Binary64.iter_xO_mul.
      replace (53 - 1) with (Z.pos (digits2_pos p) - 1 + Z.pos d) by lia.
      replace (2 ^ 53) with (2 ^ (Z.pos (digits2_pos p) + Z.pos d))
        by (f_equal; lia).
      rewrite !Z.pow_add_r by lia.
      assert (0 < 2 ^ Z.pos d) by (apply Z.pow_pos_nonneg; lia).
      split; [apply Z.mul_le_mono_nonneg_r; lia | apply Z.mul_lt_mono_pos_r; lia]. }
    destruct (binary_round_aux_normal false (Pos.iter xO p d)
                (Z.pos (digits2_pos p) - 53) loc_Exact)
      as (m & e & H & Hd' & He); [lia | lia | lia |].
    exists m, e. split; [exact H|]. split; [exact Hd' | lia].
Qed.

End Rounding.

(** ** Seconds are never negative *)

Lemma of_uint64_normal (x : tick_t) :
  is_tick x ->
  Prim2SF (of_uint64 x) = S754_zero false \/
  exists m e, Prim2SF (of_uint64 x) = S754_finite false m e /\
              Z.pos (digits2_pos m) = 53 /\ -52 <= e <= 12.
Proof.
  intros Hx. rewrite (Prim2SF_of_uint64 x Hx).
  destruct Hx as [Hlo Hhi].
  destruct x as [|p|p]; [left; reflexivity| |lia].
  destruct (Rounding.binary_normalize_uint64_normal p Hhi) as (m & e & -> & Hd & He).
  right. exists m, e. auto.
Qed.

Lemma finite_nonneg_intro (x : float) :
  Prim2SF x = S754_zero false \/
  (exists m e, Prim2SF x = S754_finite false m e) ->
  finite_nonneg x = true.
Proof.
  intros H. unfold finite_nonneg.
  rewrite FloatAxioms.leb_spec, FloatAxioms.ltb_spec.
  change (Prim2SF 0) with (S754_zero false).
  change (Prim2SF infinity) with (S754_infinity false).
  destruct H as [-> | (m & e & ->)]; reflexivity.
Qed.

Lemma reciprocal_spec :
  Prim2SF (1 / of_uint64 1000000000%Z)
  = S754_finite false 4835703278458517 (-82).
Proof. vm_compute. reflexivity. Qed.

Lemma frequency_spec :
  Prim2SF (of_uint64 1000000000%Z) = S754_finite false 8388608000000000 (-23).
Proof. vm_compute. reflexivity. Qed.

(** A tick count times the reciprocal of 10^9 is a finite, non-negative
    double. *)
Lemma mul_reciprocal_finite (x : tick_t) :
  is_tick x ->
  finite_nonneg (of_uint64 x * (1 / of_uint64 1000000000%Z)) = true.
Proof.
  intros Hx. apply finite_nonneg_intro.
  rewrite FloatAxioms.mul_spec, reciprocal_spec.
  destruct (of_uint64_normal x Hx) as [-> | (m & e & -> & Hd & He)];
    [left; reflexivity|].
  right. cbn [SFmul xorb].
  destruct (Binary64.digits2_pos_bounds m) as [Dlo Dhi].
  rewrite Hd in Dlo, Dhi. change (53 - 1) with 52 in Dlo.
  assert (Hlo : 2 ^ 52 <= Z.pos (m * 4835703278458517)) by (rewrite Pos2Z.inj_mul; lia).
  assert (Hhi : Z.pos (m * 4835703278458517) < 2 ^ 106) by (rewrite Pos2Z.inj_mul; lia).
  destruct (Rounding.binary_round_aux_normal false (m * 4835703278458517)
              (e + -82) loc_Exact) as (m' & e' & H & _ & _).
  - apply Rounding.digits2_pos_ge. exact Hlo.
  - lia.
  - pose proof (Rounding.digits2_pos_le _ 106 ltac:(lia) Hhi). lia.
  - exists m', e'. exact H.
Qed.

(** A tick count divided by 10^9 is a finite, non-negative double. *)
Lemma div_frequency_finite (x : tick_t) :
  is_tick x ->
  finite_nonneg (of_uint64 x / of_uint64 1000000000%Z) = true.
Proof.
  intros Hx. apply finite_nonneg_intro.
  rewrite FloatAxioms.div_spec, frequency_spec.
  destruct (of_uint64_normal x Hx) as [-> | (m & e & -> & Hd & He)];
    [left; reflexivity|].
  right. unfold SF64div. cbn [SFdiv xorb]. unfold SFdiv_core_binary. cbn [Zdigits2].
  rewrite Hd. change (Z.pos (digits2_pos 8388608000000000)) with 53.
  assert (Hmin : Z.min (fexp prec emax (53 + e - (53 + -23))) (e - -23) = e - 30).
  { unfold fexp, SpecFloat.emin, prec, emax. lia. }
  rewrite Hmin. replace (e - -23 - (e - 30)) with 53 by lia. cbv beta iota.
  rewrite Z.shiftl_mul_pow2 by lia.
  destruct (Binary64.digits2_pos_bounds m) as [Dlo Dhi].
  rewrite Hd in Dlo, Dhi. change (53 - 1) with 52 in Dlo.
  pose proof (Z_div_mod (Z.pos m * 2 ^ 53) 8388608000000000 eq_refl) as Hdiv.
  destruct (Z.div_eucl (Z.pos m * 2 ^ 53) 8388608000000000) as [q r].
  destruct Hdiv as [Hdiv Hr].
  assert (Hq : 2 ^ 52 <= q < 2 ^ 54) by lia.
  destruct q as [|q|q]; try lia.
  destruct (Rounding.binary_round_aux_normal false q (e - 30)
              (new_location 8388608000000000 r)) as (m' & e' & H & _ & _).
  - apply Rounding.digits2_pos_ge. lia.
  - lia.
  - pose proof (Rounding.digits2_pos_le q 54 ltac:(lia) ltac:(lia)). lia.
  - exists m', e'. exact H.
Qed.

Section Seconds.

Variable clock : platform.

Lemma elapsed_from_lastCall_value (s : state) :
  let d := u64 (if 0 =? last_mark_ticks s
                then reading_at clock (S (clock_calls s))
                     - reading_at clock (clock_calls s)
                else reading_at clock (clock_calls s) - last_mark_ticks s) in
  result (timer_elapsed_from_lastCall clock s)
  = (of_uint64 d / of_uint64 (timerlib_freq s))%float.
Proof.
  run. unfold reading_at. destruct (0 =? last_mark_ticks s); reflexivity.
Qed.

(** X9: in every state a process can reach, [timer_elapsed] and
    [timer_ticks_to_seconds] return a double that is neither a NaN nor
    negative nor infinite: [0.0 <= x && x < INFINITY] holds, whatever the
    starting tick and the clock reading. *)
Theorem elapsed_seconds_finite_nonneg (s : state) (since dt : tick_t) :
  reachable clock s -> is_tick dt ->
  finite_nonneg (result (timer_elapsed clock since s)) = true /\
  finite_nonneg (result (timer_ticks_to_seconds dt s)) = true.
Proof.
  intros Hs Hdt. destruct (reachable_inv clock s Hs) as (_ & Ho & _).
  assert (E1 : result (timer_elapsed clock since s)
               = (of_uint64 (result (timer_elapsed_ticks clock since s))
                  * timerlib_oofreq s)%float) by reflexivity.
  assert (E2 : result (timer_ticks_to_seconds dt s)
               = (of_uint64 dt * timerlib_oofreq s)%float) by reflexivity.
  assert (Hd : is_tick (result (timer_elapsed_ticks clock since s)))
    by apply u64_is_tick.
  rewrite E1, E2. destruct Ho as [-> | ->].
  - rewrite !of_uint64_mul_zero by assumption. split; reflexivity.
  - split; apply mul_reciprocal_finite; assumption.
Qed.

(** X10: in every state a process can reach, [timer_elapsed_from_lastCall]
    returns a double that is neither a NaN nor negative nor infinite, on the
    first call and on the later ones, even when the clock went backwards. *)
Theorem elapsed_from_lastCall_finite_nonneg (s : state) :
  reachable clock s ->
  finite_nonneg (result (timer_elapsed_from_lastCall clock s)) = true.
Proof.
  intros Hs. destruct (reachable_inv clock s Hs) as (Hf & _ & _).
  rewrite elapsed_from_lastCall_value, Hf. cbv zeta.
  apply div_frequency_finite. apply u64_is_tick.
Qed.

(** X11: when the clock has not moved since the reading the call measures
    from (the mark, or on a first call the reading just stored),
    [timer_elapsed_from_lastCall] returns exactly +0.0. *)
Theorem elapsed_from_lastCall_zero_interval (s : state) :
  reachable clock s ->
  (if 0 =? last_mark_ticks s
   then reading_at clock (S (clock_calls s)) = reading_at clock (clock_calls s)
   else reading_at clock (clock_calls s) = last_mark_ticks s) ->
  result (timer_elapsed_from_lastCall clock s) = 0%float.
Proof.
  intros Hs. destruct (reachable_inv clock s Hs) as (Hf & _ & _).
  rewrite elapsed_from_lastCall_value, Hf. cbv zeta.
  destruct (0 =? last_mark_ticks s); intros ->;
    rewrite Z.sub_diag; vm_compute; reflexivity.
Qed.

End Seconds.

(** ** The demonstration program *)

Lemma result_bind {A B} (m : M A) (k : A -> M B) (s : state) :
  result (bind m k s) = result (k (result (m s)) (final (m s))).
Proof.
  unfold bind, result, final.
  destruct (m s) as [[a s1] t1]. cbn [fst snd].
  destruct (k a s1) as [[b s2] t2]. reflexivity.
Qed.

Lemma final_bind {A B} (m : M A) (k : A -> M B) (s : state) :
  final (bind m k s) = final (k (result (m s)) (final (m s))).
Proof.
  unfold bind, result, final.
  destruct (m s) as [[a s1] t1]. cbn [fst snd].
  destruct (k a s1) as [[b s2] t2]. reflexivity.
Qed.

Section DemoFacts.

Variable clock : platform.

Lemma elapsed_ticks_is_zero (time : tick_t) (s : state) :
  is_tick time ->
  (result (timer_elapsed_ticks clock time s) =? 0)
  = (reading_at clock (clock_calls s) =? time).
Proof.
  intros Ht.
  assert (E : result (timer_elapsed_ticks clock time s)
              = (reading_at clock (clock_calls s) - time) mod 2 ^ 64)
    by reflexivity.
  assert (Hr : is_tick (reading_at clock (clock_calls s)))
    by apply timespec_to_ticks_is_tick.
  rewrite E. unfold is_tick in *.
  destruct (Z.eqb_spec (reading_at clock (clock_calls s)) time) as [->|Hne].
  - rewrite Z.sub_diag. reflexivity.
  - apply Z.eqb_neq. intros H0.
    destruct (Z.lt_ge_cases (reading_at clock (clock_calls s)) time).
    + assert (Hm : (reading_at clock (clock_calls s) - time) mod 2 ^ 64
                   = reading_at clock (clock_calls s) - time + 2 ^ 64)
        by (symmetry; apply Z.mod_unique with (-1); lia).
      lia.
    + rewrite Z.mod_small in H0; lia.
Qed.

Lemma spin_ends (k fuel : nat) (time : tick_t) (s : state) :
  is_tick time ->
  (forall i, (i < k)%nat -> reading_at clock (clock_calls s + i) = time) ->
  reading_at clock (clock_calls s + k) <> time ->
  (k < fuel)%nat ->
  let r := spin clock fuel time s in
  result r = Some (u64 (reading_at clock (clock_calls s + k) - time)) /\
  u64 (reading_at clock (clock_calls s + k) - time) <> 0 /\
  clock_calls (final r) = (clock_calls s + S k)%nat.
Proof.
  intros Ht. revert fuel s.
  induction k as [|k IH]; intros fuel s Hsame Hdiff Hfuel;
    (destruct fuel as [|fuel]; [lia|]); cbn zeta; cbn [spin];
    rewrite result_bind, final_bind;
    pose proof (elapsed_ticks_is_zero time s Ht) as Hz.
  - rewrite Nat.add_0_r in *.
    destruct (Z.eqb_spec (reading_at clock (clock_calls s)) time) as [|_];
      [contradiction|].
    rewrite Hz. split; [reflexivity|]. split.
    + apply Z.eqb_neq. exact Hz.
    + cbn. lia.
  - pose proof (Hsame 0%nat ltac:(lia)) as H0. rewrite Nat.add_0_r in H0.
    rewrite H0, Z.eqb_refl in Hz. rewrite Hz.
    destruct (IH fuel (final (timer_elapsed_ticks clock time s)))
      as (H1 & H2 & H3).
    + intros i Hi. cbn [final timer_elapsed_ticks]. 
      replace (clock_calls (final (timer_elapsed_ticks clock time s)) + i)%nat
        with (clock_calls s + S i)%nat by (cbn; lia).
      apply Hsame. lia.
    + replace (clock_calls (final (timer_elapsed_ticks clock time s)) + k)%nat
        with (clock_calls s + S k)%nat by (cbn; lia).
      exact Hdiff.
    + lia.
    + replace (clock_calls (final (timer_elapsed_ticks clock time s)) + k)%nat
        with (clock_calls s + S k)%nat in * by (cbn; lia).
      split; [exact H1|]. split; [exact H2|].
      rewrite H3. cbn. lia.
Qed.

(** X12: the busy-wait of [main] ends at the first clock reading that
    differs from [time]: after k readings equal to [time] it has called the
    clock k+1 times and returns the non-zero delta of the last reading. *)
Theorem spin_returns (k fuel : nat) (time : tick_t) (s : state) :
  is_tick time ->
  (forall i, (i < k)%nat -> reading_at clock (clock_calls s + i) = time) ->
  reading_at clock (clock_calls s + k) <> time ->
  (k < fuel)%nat ->
  let r := spin clock fuel time s in
  result r = Some (u64 (reading_at clock (clock_calls s + k) - time)) /\
  u64 (reading_at clock (clock_calls s + k) - time) <> 0 /\
  clock_calls (final r) = (clock_calls s + S k)%nat.
Proof. exact (spin_ends k fuel time s). Qed.

(** On a clock that stays at [time], the busy-wait is still running after
    any number of iterations. *)
Lemma spin_stuck (fuel : nat) (time : tick_t) (s : state) :
  is_tick time ->
  (forall i, reading_at clock (clock_calls s + i) = time) ->
  result (spin clock fuel time s) = None.
Proof.
  intros Ht. revert s.
  induction fuel as [|fuel IH]; intros s Hsame; [reflexivity|].
  cbn [spin]. rewrite result_bind, (elapsed_ticks_is_zero time s Ht).
  pose proof (Hsame 0%nat) as H0. rewrite Nat.add_0_r in H0.
  rewrite H0, Z.eqb_refl.
  apply IH. intros i.
  replace (clock_calls (final (timer_elapsed_ticks clock time s)) + i)%nat
    with (clock_calls s + S i)%nat by (cbn; lia).
  apply Hsame.
Qed.

(** With the reciprocal at 0 every elapsed time is 0.0, which is not above
    10.0: the loop of [main] does not end. *)
Lemma main_loop_uninitialized (fuel : nat) (start res : tick_t) (s : state) :
  timerlib_oofreq s = 0%float ->
  result (main_loop clock fuel start res s) = None.
Proof.
  revert res s. induction fuel as [|fuel IH]; intros res s Ho; [reflexivity|].
  cbn [main_loop]. rewrite !result_bind. cbv beta.
  set (s1 := final (timer_current_in_ticks clock s)).
  set (time := result (timer_current_in_ticks clock s)).
  assert (Ho1 : timerlib_oofreq s1 = 0%float) by exact Ho.
  assert (Ho2 : timerlib_oofreq (final (spin clock (S fuel) time s1)) = 0%float).
  { clearbody s1 time. clear - Ho1. revert s1 Ho1. generalize (S fuel) as n.
    induction n as [|n IHn]; intros s1 Ho1; [exact Ho1|].
    cbn [spin]. rewrite final_bind.
    destruct (result (timer_elapsed_ticks clock time s1) =? 0).
    - apply IHn. exact Ho1.
    - exact Ho1. }
  destruct (result (spin clock (S fuel) time s1)) as [tick|]; [|reflexivity].
  rewrite result_bind.
  set (s2 := final (spin clock (S fuel) time s1)) in *.
  assert (E : result (timer_elapsed clock start s2) = 0%float).
  { change (result (timer_elapsed clock start s2))
      with (of_uint64 (result (timer_elapsed_ticks clock start s2))
            * timerlib_oofreq s2)%float.
    rewrite Ho2. apply of_uint64_mul_zero. apply u64_is_tick. }
  rewrite E. change (10 <? 0)%float with false. cbv iota.
  apply IH. exact Ho2.
Qed.

(** On a monotonic clock that does not move, the busy-wait in the first
    iteration of the loop of [main] does not end. *)
Lemma main_loop_stuck (fuel : nat) (start res : tick_t) (s : state) :
  (forall n m, reading_at clock n = reading_at clock m) ->
  result (main_loop clock fuel start res s) = None.
Proof.
  intros Hsame. destruct fuel as [|fuel]; [reflexivity|].
  cbn [main_loop]. rewrite !result_bind. cbv beta.
  rewrite spin_stuck; [reflexivity | apply timespec_to_ticks_is_tick |].
  intros i. apply Hsame.
Qed.

Lemma initialize_failed (s : state) :
  next_rc clock CLOCK_MONOTONIC s <> 0 ->
  timerlib_oofreq (final (timer_lib_initialize clock s)) = timerlib_oofreq s.
Proof.
  intros Hrc. apply (after_frame clock call_initialize s).
  cbn [init_succeeds]. run. unfold next_rc in Hrc. apply Z.eqb_neq in Hrc.
  rewrite Hrc. reflexivity.
Qed.

Lemma lastCall_keeps_oofreq (s : state) :
  timerlib_oofreq (final (timer_elapsed_from_lastCall clock s))
  = timerlib_oofreq s.
Proof. exact (proj2 (after_frame clock call_elapsed_from_lastCall s eq_refl)). Qed.

(** X13: [main] does not look at what [timer_lib_initialize] returns: when
    the initialisation fails in a fresh process, the reciprocal stays 0,
    [timer_elapsed( start ) > 10.0] never holds, and [main] is still running
    after any number of loop iterations, however the clock behaves
    afterwards. *)
Theorem main_hangs_when_initialize_fails (fuel : nat) (s : state) :
  timerlib_oofreq s = 0%float ->
  next_rc clock CLOCK_MONOTONIC s <> 0 ->
  result (main clock fuel s) = None.
Proof.
  intros Ho Hrc. unfold main. rewrite !result_bind. cbv beta zeta.
  rewrite main_loop_uninitialized; [reflexivity|].
  rewrite !lastCall_keeps_oofreq.
  change (timerlib_oofreq (final (timer_lib_initialize clock s)) = 0%float).
  rewrite initialize_failed by exact Hrc. exact Ho.
Qed.

(** X14: on a monotonic clock that does not move, [main] is still running
    after any number of loop iterations: its busy-wait never sees a non-zero
    tick delta. *)
Theorem main_hangs_on_stopped_clock (fuel : nat) (s : state) :
  (forall n m, reading_at clock n = reading_at clock m) ->
  result (main clock fuel s) = None.
Proof.
  intros Hsame. unfold main. rewrite !result_bind. cbv beta zeta.
  rewrite main_loop_stuck by exact Hsame. reflexivity.
Qed.

Lemma spin_keeps_oofreq (fuel : nat) (time : tick_t) (s : state) :
  timerlib_oofreq (final (spin clock fuel time s)) = timerlib_oofreq s.
Proof.
  revert s. induction fuel as [|fuel IH]; intros s; [reflexivity|].
  cbn [spin]. rewrite final_bind.
  destruct (result (timer_elapsed_ticks clock time s) =? 0).
  - rewrite IH. reflexivity.
  - reflexivity.
Qed.

(** X15: when the monotonic clock moves between the two readings of every
    busy-wait (iteration i of the loop of [main] then makes the clock calls
    3i, 3i+1 and 3i+2 of the loop), the loop ends in the first iteration
    whose [timer_elapsed( start )] exceeds 10.0, and the resolution it
    returns is at most the resolution it started from and at most every
    tick delta it measured; it is one of them. *)
Theorem main_loop_returns_minimum (j fuel : nat) (start res : tick_t) (s : state) :
  let c := clock_calls s in
  let delta i := u64 (reading_at clock (c + 3 * i + 1)
                      - reading_at clock (c + 3 * i)) in
  let over i := (10 <? of_uint64 (u64 (reading_at clock (c + 3 * i + 2) - start))
                       * timerlib_oofreq s)%float in
  (forall i, (i <= j)%nat ->
     reading_at clock (c + 3 * i + 1) <> reading_at clock (c + 3 * i)) ->
  (forall i, (i < j)%nat -> over i = false) ->
  over j = true ->
  (j < fuel)%nat ->
  exists r,
    result (main_loop clock fuel start res s) = Some r /\
    r <= res /\
    (forall i, (i <= j)%nat -> r <= delta i) /\
    (r = res \/ exists i, (i <= j)%nat /\ r = delta i).
Proof.
  cbv zeta. revert fuel res s.
  induction j as [|j IH]; intros fuel res s Hmove Hnot Hover Hfuel;
    (destruct fuel as [|fuel]; [lia|]);
    cbn [main_loop]; rewrite !result_bind; cbv beta;
    set (s1 := final (timer_current_in_ticks clock s));
    set (time := result (timer_current_in_ticks clock s));
    (assert (Hc1 : clock_calls s1 = S (clock_calls s)) by reflexivity);
    (assert (Htime : time = reading_at clock (clock_calls s)) by reflexivity);
    (destruct (spin_ends 0 (S fuel) time s1) as (Hsp & _ & Hc2);
       [ apply timespec_to_ticks_is_tick
       | intros i Hi; lia
       | rewrite Nat.add_0_r, Hc1, Htime;
         pose proof (Hmove 0%nat ltac:(lia)) as Hm0;
         replace (clock_calls s + 3 * 0 + 1)%nat with (S (clock_calls s))
           in Hm0 by lia;
         replace (clock_calls s + 3 * 0)%nat with (clock_calls s) in Hm0 by lia;
         exact Hm0
       | lia
       | ]);
    rewrite Hsp, result_bind;
    set (s2 := final (spin clock (S fuel) time s1)) in *;
    (assert (Ho2 : timerlib_oofreq s2 = timerlib_oofreq s)
       by (unfold s2; rewrite spin_keeps_oofreq; reflexivity));
    (assert (Esec : result (timer_elapsed clock start s2)
                    = (of_uint64 (u64 (reading_at clock (clock_calls s + 2) - start))
                       * timerlib_oofreq s)%float)
       by (rewrite <- Ho2;
           replace (clock_calls s + 2)%nat with (clock_calls s2) by lia;
           reflexivity));
    rewrite Esec;
    rewrite Nat.add_0_r, Hc1, Htime in *;
    set (tick := u64 (reading_at clock (S (clock_calls s))
                      - reading_at clock (clock_calls s))) in *.
  - replace (clock_calls s + 3 * 0 + 2)%nat with (clock_calls s + 2)%nat
      in Hover by lia.
    rewrite Hover. eexists. split; [reflexivity|].
    replace (clock_calls s + 3 * 0 + 1)%nat with (S (clock_calls s)) by lia.
    replace (clock_calls s + 3 * 0)%nat with (clock_calls s) by lia.
    fold tick.
    destruct (Z.ltb_spec tick res); repeat split; try lia.
    + intros i Hi. replace i with 0%nat by lia.
      replace (clock_calls s + 3 * 0 + 1)%nat with (S (clock_calls s)) by lia.
      replace (clock_calls s + 3 * 0)%nat with (clock_calls s) by lia.
      fold tick. lia.
    + right. exists 0%nat. split; [lia|].
      replace (clock_calls s + 3 * 0 + 1)%nat with (S (clock_calls s)) by lia.
      replace (clock_calls s + 3 * 0)%nat with (clock_calls s) by lia.
      reflexivity.
    + intros i Hi. replace i with 0%nat by lia.
      replace (clock_calls s + 3 * 0 + 1)%nat with (S (clock_calls s)) by lia.
      replace (clock_calls s + 3 * 0)%nat with (clock_calls s) by lia.
      fold tick. lia.
  - pose proof (Hnot 0%nat ltac:(lia)) as H0.
    replace (clock_calls s + 3 * 0 + 2)%nat with (clock_calls s + 2)%nat
      in H0 by lia.
    rewrite H0.
    set (s3 := final (timer_elapsed clock start s2)).
    assert (Hc3 : clock_calls s3 = (clock_calls s + 3)%nat)
      by (change (clock_calls s3) with (S (clock_calls s2)); lia).
    assert (Ho3 : timerlib_oofreq s3 = timerlib_oofreq s) by exact Ho2.
    destruct (IH fuel (if tick <? res then tick else res) s3)
      as (r & Hr & Hle & Hall & Hone).
    + intros i Hi. rewrite Hc3.
      replace (clock_calls s + 3 + 3 * i + 1)%nat
        with (clock_calls s + 3 * S i + 1)%nat by lia.
      replace (clock_calls s + 3 + 3 * i)%nat
        with (clock_calls s + 3 * S i)%nat by lia.
      apply Hmove. lia.
    + intros i Hi. rewrite Hc3, Ho3.
      replace (clock_calls s + 3 + 3 * i + 2)%nat
        with (clock_calls s + 3 * S i + 2)%nat by lia.
      apply Hnot. lia.
    + rewrite Hc3, Ho3.
      replace (clock_calls s + 3 + 3 * j + 2)%nat
        with (clock_calls s + 3 * S j + 2)%nat by lia.
      exact Hover.
    + lia.
    + rewrite Hc3 in Hall, Hone.
      assert (Hd : forall i, (clock_calls s + 3 + 3 * i + 1 = clock_calls s + 3 * S i + 1
                              /\ clock_calls s + 3 + 3 * i = clock_calls s + 3 * S i)%nat)
        by (intros i; lia).
      exists r. split; [exact Hr|].
      assert (Hd0 : u64 (reading_at clock (clock_calls s + 3 * 0 + 1)
                         - reading_at clock (clock_calls s + 3 * 0)) = tick).
      { replace (clock_calls s + 3 * 0 + 1)%nat with (S (clock_calls s)) by lia.
        replace (clock_calls s + 3 * 0)%nat with (clock_calls s) by lia.
        reflexivity. }
      split; [destruct (Z.ltb_spec tick res); lia|]. split.
      * intros [|i] Hi.
        -- rewrite Hd0. destruct (Z.ltb_spec tick res); lia.
        -- destruct (Hd i) as [<- <-]. apply Hall. lia.
      * destruct Hone as [Hone | (i & Hi & Hone)].
        -- destruct (Z.ltb_spec tick res); [right; exists 0%nat | left].
           ++ split; [lia|]. rewrite Hd0. exact Hone.
           ++ exact Hone.
        -- right. exists (S i). split; [lia|].
           destruct (Hd i) as [<- <-]. exact Hone.
Qed.

End DemoFacts.

(** ** The further properties on concrete platforms *)

Lemma timer_current_in_ticks_exact_witness :
  let clock := const_clock 0 {| tv_sec := 3; tv_nsec := 7 |} in
  normalized {| tv_sec := 3; tv_nsec := 7 |} /\
  nanoseconds {| tv_sec := 3; tv_nsec := 7 |} < 2 ^ 64 /\
  result (timer_current_in_ticks clock initial_state) = 3000000007.
Proof.
  intros clock.
  assert (Hn : normalized {| tv_sec := 3; tv_nsec := 7 |})
    by (unfold normalized; cbn; lia).
  assert (Hlt : nanoseconds {| tv_sec := 3; tv_nsec := 7 |} < 2 ^ 64)
    by (vm_compute; reflexivity).
  split; [exact Hn|]. split; [exact Hlt|].
  exact (timer_current_in_ticks_exact clock initial_state Hn Hlt).
Defined.

Lemma elapsed_ticks_since_reading_witness :
  let clock := list_clock [ {| tv_sec := 1; tv_nsec := 999999999 |};
                            {| tv_sec := 2; tv_nsec := 1 |} ] in
  let r1 := timer_current_in_ticks clock initial_state in
  result r1 <= reading_at clock 1 /\
  result (timer_elapsed_ticks clock (result r1) (final r1)) = 2.
Proof.
  intros clock r1.
  apply (elapsed_ticks_since_reading clock initial_state).
  - unfold normalized; cbn; lia.
  - unfold normalized; cbn; lia.
  - vm_compute; discriminate.
  - vm_compute; reflexivity.
Defined.

Lemma timer_system_in_millisecond_floor_witness :
  let clock := const_clock 0 {| tv_sec := 5; tv_nsec := 123456789 |} in
  normalized {| tv_sec := 5; tv_nsec := 123456789 |} /\
  result (timer_system_in_millisecond clock initial_state) = 5123.
Proof.
  intros clock.
  assert (Hn : normalized {| tv_sec := 5; tv_nsec := 123456789 |})
    by (unfold normalized; cbn; lia).
  split; [exact Hn|].
  apply (timer_system_in_millisecond_floor clock initial_state Hn).
  vm_compute; reflexivity.
Defined.

Lemma timer_system_in_microsecond_floor_witness :
  let clock := const_clock 0 {| tv_sec := 5; tv_nsec := 123456789 |} in
  normalized {| tv_sec := 5; tv_nsec := 123456789 |} /\
  result (timer_system_in_microsecond clock initial_state) = 5123456 /\
  result (timer_system_in_microsecond clock initial_state) / 1000
    = result (timer_system_in_millisecond clock initial_state).
Proof.
  intros clock.
  assert (Hn : normalized {| tv_sec := 5; tv_nsec := 123456789 |})
    by (unfold normalized; cbn; lia).
  split; [exact Hn|].
  apply (timer_system_in_microsecond_floor clock initial_state Hn).
  vm_compute; reflexivity.
Defined.

Lemma readers_on_untouched_struct_witness :
  is_tick 5 /\
  result (timer_current_in_ticks failing_clock initial_state) = 0 /\
  result (timer_system_in_millisecond failing_clock initial_state) = 0 /\
  result (timer_system_in_microsecond failing_clock initial_state) = 0 /\
  result (timer_system_in_nanosecond failing_clock initial_state) = 0 /\
  result (timer_elapsed_ticks failing_clock 5 initial_state) = 2 ^ 64 - 5.
Proof.
  assert (Ht : is_tick 5) by (unfold is_tick; lia).
  split; [exact Ht|].
  apply (readers_on_untouched_struct failing_clock initial_state 5).
  - intros id. reflexivity.
  - exact Ht.
  - lia.
Defined.

Lemma no_store_outside_initialize_and_lastCall_witness :
  let clock := seconds_clock in
  let s := marked_state 7 in
  existsb is_store (trace clock (call_elapsed 3) s) = false /\
  timerlib_freq (after clock (call_elapsed 3) s) = timerlib_freq s /\
  timerlib_oofreq (after clock (call_elapsed 3) s) = timerlib_oofreq s /\
  last_mark_ticks (after clock (call_elapsed 3) s) = 7.
Proof.
  intros clock s.
  apply (no_store_outside_initialize_and_lastCall clock (call_elapsed 3) s).
  - reflexivity.
  - discriminate.
Defined.

(** A process that runs on [late_clock]: a failed initialisation, a
    measurement, a successful initialisation, another measurement. *)
Lemma frequency_is_constant_witness :
  let clock := late_clock in
  let s := after clock call_elapsed_from_lastCall
             (after clock call_initialize
                (after clock call_elapsed_from_lastCall
                   (after clock call_initialize initial_state))) in
  reachable clock s /\
  result (timer_ticks_per_second s) = 1000000000.
Proof.
  intros clock s.
  assert (Hs : reachable clock s) by (repeat apply re_call; apply re_start).
  split; [exact Hs|].
  exact (proj1 (frequency_is_constant clock s Hs)).
Defined.

(** The clock goes backwards between the two calls of
    [timer_elapsed_from_lastCall]: the second delta wraps around, and the
    seconds are huge but not negative. *)
Lemma elapsed_seconds_finite_nonneg_witness :
  let clock := list_clock [ {| tv_sec := 9; tv_nsec := 0 |};
                            {| tv_sec := 9; tv_nsec := 0 |};
                            {| tv_sec := 4; tv_nsec := 0 |} ] in
  let s := after clock call_initialize initial_state in
  reachable clock s /\ is_tick 7 /\
  finite_nonneg (result (timer_elapsed clock 9000000001 s)) = true /\
  finite_nonneg (result (timer_ticks_to_seconds 7 s)) = true.
Proof.
  intros clock s.
  assert (Hs : reachable clock s) by (repeat apply re_call; apply re_start).
  assert (Ht : is_tick 7) by (unfold is_tick; lia).
  split; [exact Hs|]. split; [exact Ht|].
  exact (elapsed_seconds_finite_nonneg clock s 9000000001 7 Hs Ht).
Defined.

Lemma elapsed_from_lastCall_finite_nonneg_witness :
  let clock := list_clock [ {| tv_sec := 9; tv_nsec := 0 |};
                            {| tv_sec := 9; tv_nsec := 0 |};
                            {| tv_sec := 4; tv_nsec := 0 |} ] in
  let s := after clock call_elapsed_from_lastCall initial_state in
  reachable clock s /\
  finite_nonneg (result (timer_elapsed_from_lastCall clock s)) = true.
Proof.
  intros clock s.
  assert (Hs : reachable clock s) by (repeat apply re_call; apply re_start).
  split; [exact Hs|].
  exact (elapsed_from_lastCall_finite_nonneg clock s Hs).
Defined.

Lemma elapsed_from_lastCall_zero_interval_witness :
  let clock := const_clock 0 {| tv_sec := 9; tv_nsec := 5 |} in
  let s := after clock call_elapsed_from_lastCall initial_state in
  reachable clock s /\
  last_mark_ticks s = 9000000005 /\
  result (timer_elapsed_from_lastCall clock s) = 0%float.
Proof.
  intros clock s.
  assert (Hs : reachable clock s) by (repeat apply re_call; apply re_start).
  split; [exact Hs|]. split; [reflexivity|].
  apply (elapsed_from_lastCall_zero_interval clock s Hs).
  reflexivity.
Defined.

(** The clock stays at 4 s for two readings and moves to 4.000000003 s at
    the third. *)
Lemma spin_returns_witness :
  let clock := list_clock [ {| tv_sec := 4; tv_nsec := 0 |};
                            {| tv_sec := 4; tv_nsec := 0 |};
                            {| tv_sec := 4; tv_nsec := 3 |} ] in
  let r := spin clock 5 4000000000 initial_state in
  is_tick 4000000000 /\
  result r = Some 3 /\ clock_calls (final r) = 3%nat.
Proof.
  intros clock r.
  assert (Ht : is_tick 4000000000) by (unfold is_tick; lia).
  split; [exact Ht|].
  destruct (spin_returns clock 2 5 4000000000 initial_state Ht) as (H1 & _ & H3).
  - intros i Hi. destruct i as [|[|i]]; [reflexivity | reflexivity | lia].
  - vm_compute. discriminate.
  - lia.
  - split; [exact H1 | exact H3].
Defined.

Lemma main_hangs_when_initialize_fails_witness :
  timerlib_oofreq initial_state = 0%float /\
  next_rc late_clock CLOCK_MONOTONIC initial_state <> 0 /\
  result (main late_clock 100 initial_state) = None.
Proof.
  assert (Ho : timerlib_oofreq initial_state = 0%float) by reflexivity.
  assert (Hrc : next_rc late_clock CLOCK_MONOTONIC initial_state <> 0)
    by (vm_compute; discriminate).
  split; [exact Ho|]. split; [exact Hrc|].
  exact (main_hangs_when_initialize_fails late_clock 100 initial_state Ho Hrc).
Defined.

Lemma main_hangs_on_stopped_clock_witness :
  let clock := const_clock 0 {| tv_sec := 5; tv_nsec := 0 |} in
  (forall n m, reading_at clock n = reading_at clock m) /\
  result (main clock 100 initial_state) = None.
Proof.
  intros clock.
  assert (H : forall n m, reading_at clock n = reading_at clock m)
    by (intros n m; reflexivity).
  split; [exact H|].
  exact (main_hangs_on_stopped_clock clock 100 initial_state H).
Defined.

(** On [seconds_clock] the loop started at the first clock call measures a
    delta of one second per iteration and leaves in its fourth iteration,
    when 11 s have elapsed. *)
Lemma main_loop_returns_minimum_witness :
  exists r,
    result (main_loop seconds_clock 4 0 18446744073709551615 (marked_state 0))
    = Some r /\
    r <= 1000000000.
Proof.
  destruct (main_loop_returns_minimum seconds_clock 3 4 0
              18446744073709551615 (marked_state 0))
    as (r & Hr & _ & Hall & _).
  - intros i Hi. destruct i as [|[|[|[|i]]]]; [vm_compute; discriminate .. | lia].
  - intros i Hi. destruct i as [|[|[|i]]]; [vm_compute; reflexivity .. | lia].
  - vm_compute. reflexivity.
  - lia.
  - exists r. split; [exact Hr|].
    apply (Hall 0%nat). lia.
Defined.

(** ** The Windows backend *)

Section WindowsFacts.

Variable sys : Windows.system.

(** X16: on Windows [timer_lib_initialize] lets
    [QueryPerformanceFrequency] write into [timerlib_freq] before it knows
    whether the initialisation succeeds: it returns -1 exactly when one of
    the two queries returns FALSE (the counter is queried only if the
    frequency query succeeded), and then [timerlib_freq] already holds what
    the frequency query left while [timerlib_oofreq] is as before; when both
    succeed it returns 0 and [timerlib_oofreq] is
    [1.0 / (double)timerlib_freq] for the queried frequency. *)
Theorem windows_initialize_spec (s : state) :
  let n := clock_calls s in
  let f := Windows.QueryPerformanceFrequency sys n (timerlib_freq s) in
  let c := Windows.QueryPerformanceCounter sys (S n) (Windows.indeterminate sys n) in
  let r := Windows.timer_lib_initialize sys s in
  timerlib_freq (final r) = u64 (snd f) /\
  last_mark_ticks (final r) = last_mark_ticks s /\
  if fst f then
    if fst c then
      result r = 0 /\
      timerlib_oofreq (final r) = (1 / of_uint64 (u64 (snd f)))%float /\
      clock_calls (final r) = S (S n)
    else
      result r = -1 /\
      timerlib_oofreq (final r) = timerlib_oofreq s /\
      clock_calls (final r) = S (S n)
  else
    result r = -1 /\
    timerlib_oofreq (final r) = timerlib_oofreq s /\
    clock_calls (final r) = S n.
Proof.
  unfold Windows.timer_lib_initialize, Windows.uninitialized, Windows.query,
    Windows.tick, bind, ret, get_freq, set_freq, set_oofreq, result, final.
  cbn [fst snd timerlib_freq timerlib_oofreq last_mark_ticks clock_calls].
  destruct (fst (Windows.QueryPerformanceFrequency sys (clock_calls s)
                   (timerlib_freq s)));
    cbn [negb fst snd timerlib_freq timerlib_oofreq last_mark_ticks clock_calls].
  - destruct (fst (Windows.QueryPerformanceCounter sys (S (clock_calls s))
                     (Windows.indeterminate sys (clock_calls s))));
      cbn [negb fst snd timerlib_freq timerlib_oofreq last_mark_ticks clock_calls];
      repeat split; reflexivity.
  - repeat split; reflexivity.
Qed.

(** X17: on Windows [timer_elapsed_ticks] starts from [curclock = t], so
    when [QueryPerformanceCounter] leaves the word untouched the delta is 0
    (where the POSIX code returns [2^64 - t]). *)
Theorem windows_elapsed_ticks_untouched (s : state) (t : tick_t) :
  is_tick t ->
  snd (Windows.QueryPerformanceCounter sys (clock_calls s) t) = t ->
  result (Windows.timer_elapsed_ticks sys t s) = 0.
Proof.
  intros Ht Hq.
  assert (E : result (Windows.timer_elapsed_ticks sys t s)
              = u64 (u64 (snd (Windows.QueryPerformanceCounter sys (clock_calls s) t)) - t))
    by reflexivity.
  rewrite E, Hq. unfold u64, is_tick in *.
  rewrite (Z.mod_small t) by lia. rewrite Z.sub_diag. reflexivity.
Qed.

(** X18: on Windows the microsecond and nanosecond readers have millisecond
    resolution: on the same [_ftime64_s] reading (seconds not negative, the
    nanosecond value within 64 bits) [timer_system_in_microsecond] is 1000
    times and [timer_system_in_nanosecond] 1000000 times what
    [timer_system_in_millisecond] returns, [time * 1000 + millitm]. *)
Theorem windows_system_readers (s : state) :
  let tb := Windows.ftime64_s sys (clock_calls s) in
  0 <= Windows.time tb -> 0 <= Windows.millitm tb < 65536 ->
  Windows.time tb * 1000000000 + Windows.millitm tb * 1000000 < 2 ^ 64 ->
  result (Windows.timer_system_in_millisecond sys s)
    = Windows.time tb * 1000 + Windows.millitm tb /\
  result (Windows.timer_system_in_microsecond sys s)
    = 1000 * result (Windows.timer_system_in_millisecond sys s) /\
  result (Windows.timer_system_in_nanosecond sys s)
    = 1000000 * result (Windows.timer_system_in_millisecond sys s).
Proof.
  intros tb Ht Hm Hlt.
  assert (E1 : result (Windows.timer_system_in_millisecond sys s)
               = u64 (u64 (u64 (Windows.time tb) * 1000) + u64 (Windows.millitm tb)))
    by reflexivity.
  assert (E2 : result (Windows.timer_system_in_microsecond sys s)
               = u64 (u64 (u64 (Windows.time tb) * 1000000)
                      + u64 (u64 (Windows.millitm tb) * 1000)))
    by reflexivity.
  assert (E3 : result (Windows.timer_system_in_nanosecond sys s)
               = u64 (u64 (u64 (Windows.time tb) * 1000000000)
                      + u64 (u64 (Windows.millitm tb) * 1000000)))
    by reflexivity.
  rewrite E1, E2, E3. unfold u64.
  rewrite (Z.mod_small (Windows.time tb)) by lia.
  rewrite (Z.mod_small (Windows.millitm tb)) by lia.
  rewrite (Z.mod_small (Windows.time tb * 1000)) by lia.
  rewrite (Z.mod_small (Windows.time tb * 1000000)) by lia.
  rewrite (Z.mod_small (Windows.time tb * 1000000000)) by lia.
  rewrite (Z.mod_small (Windows.millitm tb * 1000)) by lia.
  rewrite (Z.mod_small (Windows.millitm tb * 1000000)) by lia.
  rewrite !Z.mod_small by lia. lia.
Qed.

End WindowsFacts.

(** ** The Apple backend *)

Section AppleFacts.

Variable sys : Apple.system.

(** X19: on Apple every tick reader divides by [timerlib_info.denom]: while
    it is 0, as in the zero-initialised static before
    [timer_lib_initialize], none of them has a result. *)
Theorem apple_readers_divide_by_denom (s : Apple.state) (t : tick_t) :
  Apple.denom (Apple.timerlib_info s) = 0 ->
  Apple.value (Apple.timer_current_in_ticks sys s) = None /\
  Apple.value (Apple.timer_elapsed_ticks sys t s) = None /\
  Apple.value (Apple.timer_system_in_millisecond sys s) = None /\
  Apple.value (Apple.timer_system_in_microsecond sys s) = None /\
  Apple.value (Apple.timer_system_in_nanosecond sys s) = None.
Proof.
  intros Hd.
  unfold Apple.timer_current_in_ticks, Apple.timer_elapsed_ticks,
    Apple.timer_system_in_millisecond, Apple.timer_system_in_microsecond,
    Apple.timer_system_in_nanosecond, Apple.bind, Apple.call_mach_absolute_time,
    Apple.absolutetime_to_nanoseconds, Apple.tick.
  cbn [Apple.timerlib_info]. rewrite Hd.
  repeat split; reflexivity.
Qed.

(** X20: on Apple, with a non-zero [timerlib_info.denom], the three
    [timer_system_in_*] readers are the monotonic tick value of
    [timer_current_in_ticks] on the same [mach_absolute_time] reading,
    [(mach_time * numer mod 2^64) / denom], divided by 1000000, by 1000 and
    by 1, and [timer_elapsed_ticks t] is that value minus [t] modulo
    2^64. *)
Theorem apple_readers_agree (s : Apple.state) (t : tick_t) :
  Apple.denom (Apple.timerlib_info s) <> 0 ->
  let ns := u64 (u64 (Apple.mach_absolute_time sys (Apple.system_calls s))
                 * Apple.numer (Apple.timerlib_info s))
            / Apple.denom (Apple.timerlib_info s) in
  Apple.value (Apple.timer_current_in_ticks sys s) = Some ns /\
  Apple.value (Apple.timer_system_in_nanosecond sys s) = Some ns /\
  Apple.value (Apple.timer_system_in_microsecond sys s) = Some (ns / 1000) /\
  Apple.value (Apple.timer_system_in_millisecond sys s) = Some (ns / 1000000) /\
  Apple.value (Apple.timer_elapsed_ticks sys t s) = Some (u64 (ns - t)).
Proof.
  intros Hd.
  unfold Apple.timer_current_in_ticks, Apple.timer_elapsed_ticks,
    Apple.timer_system_in_millisecond, Apple.timer_system_in_microsecond,
    Apple.timer_system_in_nanosecond, Apple.bind, Apple.call_mach_absolute_time,
    Apple.absolutetime_to_nanoseconds, Apple.tick.
  cbn [Apple.timerlib_info]. apply Z.eqb_neq in Hd. rewrite Hd.
  repeat split; reflexivity.
Qed.

(** X21: on Apple, when [mach_time * numer] fits 64 bits,
    [timer_current_in_ticks] is the mach time scaled by [numer / denom] and
    rounded down; with [numer = denom] it is the mach time itself. *)
Theorem apple_current_in_ticks_exact (s : Apple.state) :
  let info := Apple.timerlib_info s in
  let mach_time := u64 (Apple.mach_absolute_time sys (Apple.system_calls s)) in
  0 < Apple.denom info -> 0 <= Apple.numer info ->
  mach_time * Apple.numer info < 2 ^ 64 ->
  Apple.value (Apple.timer_current_in_ticks sys s)
    = Some (mach_time * Apple.numer info / Apple.denom info) /\
  (Apple.numer info = Apple.denom info ->
   Apple.value (Apple.timer_current_in_ticks sys s) = Some mach_time).
Proof.
  intros info mach_time Hd Hn Hlt.
  assert (Hm : 0 <= mach_time) by (apply u64_is_tick).
  assert (E : Apple.value (Apple.timer_current_in_ticks sys s)
              = Some (u64 (mach_time * Apple.numer info) / Apple.denom info)).
  { unfold Apple.timer_current_in_ticks, Apple.bind,
      Apple.call_mach_absolute_time, Apple.absolutetime_to_nanoseconds,
      Apple.tick.
    cbn [Apple.timerlib_info]. fold info.
    replace (Apple.denom info =? 0) with false
      by (symmetry; apply Z.eqb_neq; lia).
    reflexivity. }
  assert (Hu : u64 (mach_time * Apple.numer info) = mach_time * Apple.numer info)
    by (unfold u64; apply Z.mod_small; split; [nia | lia]).
  rewrite E, Hu.
  split; [reflexivity|].
  intros ->. rewrite Z.div_mul by lia. reflexivity.
Qed.

(** X22: on Apple [timer_lib_initialize] returns -1 exactly when
    [mach_timebase_info] returns non-zero; either way [timerlib_info] holds
    what that call left in it; on failure frequency and reciprocal are as
    before, on success they are 1000000000 and its rounded reciprocal. *)
Theorem apple_initialize_spec (s : Apple.state) :
  let r := Apple.mach_timebase_info sys (Apple.system_calls s)
             (Apple.timerlib_info s) in
  exists s',
    Apple.timer_lib_initialize sys s
      = Some ((if fst r =? 0 then 0 else -1), s') /\
    Apple.numer (Apple.timerlib_info s') = Apple.u32 (Apple.numer (snd r)) /\
    Apple.denom (Apple.timerlib_info s') = Apple.u32 (Apple.denom (snd r)) /\
    Apple.last_mark_ticks s' = Apple.last_mark_ticks s /\
    if fst r =? 0 then
      Apple.timerlib_freq s' = 1000000000 /\
      Apple.timerlib_oofreq s' = (1 / of_uint64 (Apple.timerlib_freq s'))%float
    else
      Apple.timerlib_freq s' = Apple.timerlib_freq s /\
      Apple.timerlib_oofreq s' = Apple.timerlib_oofreq s.
Proof.
  unfold Apple.timer_lib_initialize. cbv zeta.
  destruct (fst (Apple.mach_timebase_info sys (Apple.system_calls s)
                   (Apple.timerlib_info s)) =? 0);
    cbn [negb]; eexists; (split; [reflexivity|]);
    cbn [Apple.timerlib_info Apple.numer Apple.denom Apple.last_mark_ticks
         Apple.timerlib_freq Apple.timerlib_oofreq];
    repeat split; reflexivity.
Qed.

End AppleFacts.

(** ** The two backends on concrete systems *)

Lemma windows_elapsed_ticks_untouched_witness :
  is_tick 77 /\
  result (Windows.timer_elapsed_ticks windows_sample 77 Windows.initial_state) = 0.
Proof.
  assert (Ht : is_tick 77) by (unfold is_tick; lia).
  split; [exact Ht|].
  apply (windows_elapsed_ticks_untouched windows_sample Windows.initial_state 77 Ht).
  reflexivity.
Defined.

Lemma windows_system_readers_witness :
  result (Windows.timer_system_in_millisecond windows_sample Windows.initial_state)
    = 5123 /\
  result (Windows.timer_system_in_microsecond windows_sample Windows.initial_state)
    = 1000 * result (Windows.timer_system_in_millisecond windows_sample
                       Windows.initial_state) /\
  result (Windows.timer_system_in_nanosecond windows_sample Windows.initial_state)
    = 1000000 * result (Windows.timer_system_in_millisecond windows_sample
                          Windows.initial_state).
Proof.
  apply (windows_system_readers windows_sample Windows.initial_state).
  - cbn. lia.
  - cbn. lia.
  - vm_compute. reflexivity.
Defined.

Lemma apple_readers_divide_by_denom_witness :
  Apple.denom (Apple.timerlib_info Apple.initial_state) = 0 /\
  Apple.value (Apple.timer_current_in_ticks apple_sample Apple.initial_state) = None /\
  Apple.value (Apple.timer_elapsed_ticks apple_sample 5 Apple.initial_state) = None.
Proof.
  assert (Hd : Apple.denom (Apple.timerlib_info Apple.initial_state) = 0)
    by reflexivity.
  split; [exact Hd|].
  destruct (apple_readers_divide_by_denom apple_sample Apple.initial_state 5 Hd)
    as (H1 & H2 & _).
  split; [exact H1 | exact H2].
Defined.

Lemma apple_readers_agree_witness :
  Apple.denom (Apple.timerlib_info (apple_state 125 3)) <> 0 /\
  Apple.value (Apple.timer_current_in_ticks apple_sample (apple_state 125 3))
    = Some 1000000000 /\
  Apple.value (Apple.timer_system_in_millisecond apple_sample (apple_state 125 3))
    = Some 1000.
Proof.
  assert (Hd : Apple.denom (Apple.timerlib_info (apple_state 125 3)) <> 0)
    by (cbn; lia).
  split; [exact Hd|].
  destruct (apple_readers_agree apple_sample (apple_state 125 3) 0 Hd)
    as (H1 & _ & _ & H4 & _).
  split; [exact H1 | exact H4].
Defined.

Lemma apple_current_in_ticks_exact_witness :
  Apple.value (Apple.timer_current_in_ticks apple_sample (apple_state 125 3))
    = Some (24000000 * 125 / 3).
Proof.
  apply (apple_current_in_ticks_exact apple_sample (apple_state 125 3)).
  - cbn. lia.
  - cbn. lia.
  - vm_compute. reflexivity.
Defined.

(** ** Initialisation and the time before it, on the three backends *)

Section Backends.

Variable clock : platform.
Variable wsys : Windows.system.
Variable asys : Apple.system.

Lemma windows_after_frame (c : call) (s : state) :
  Windows.init_succeeds wsys c s = false ->
  timerlib_oofreq (Windows.after wsys c s) = timerlib_oofreq s.
Proof.
  destruct c; cbn [Windows.after Windows.init_succeeds]; intros Hc;
    try reflexivity.
  - revert Hc.
    unfold Windows.timer_lib_initialize, Windows.uninitialized, Windows.query,
      Windows.tick, bind, ret, get_freq, set_freq, set_oofreq, result, final.
    cbn [fst snd timerlib_freq timerlib_oofreq last_mark_ticks clock_calls].
    destruct (fst (Windows.QueryPerformanceFrequency wsys (clock_calls s)
                     (timerlib_freq s)));
      cbn [negb fst snd timerlib_freq timerlib_oofreq last_mark_ticks clock_calls];
      [|reflexivity].
    destruct (fst (Windows.QueryPerformanceCounter wsys (S (clock_calls s))
                     (Windows.indeterminate wsys (clock_calls s))));
      cbn [negb fst snd timerlib_freq timerlib_oofreq last_mark_ticks clock_calls];
      [discriminate | reflexivity].
  - unfold Windows.timer_elapsed_from_lastCall, Windows.timer_current_in_ticks,
      Windows.uninitialized, Windows.query, Windows.tick, bind, ret,
      get_freq, get_mark, set_mark, final.
    destruct (0 =? last_mark_ticks s); reflexivity.
Qed.

Lemma windows_never_initialized_inv (s : state) :
  Windows.never_initialized wsys s -> timerlib_oofreq s = 0%float.
Proof.
  induction 1 as [|s c Hs IH Hc]; [reflexivity|].
  rewrite (windows_after_frame c s Hc). exact IH.
Qed.

Lemma apple_bind_keeps {A B} (m : Apple.M A) (k : A -> Apple.M B) :
  (forall s a s', m s = Some (a, s') ->
     Apple.timerlib_oofreq s' = Apple.timerlib_oofreq s) ->
  (forall a s b s', k a s = Some (b, s') ->
     Apple.timerlib_oofreq s' = Apple.timerlib_oofreq s) ->
  forall s b s', Apple.bind m k s = Some (b, s') ->
    Apple.timerlib_oofreq s' = Apple.timerlib_oofreq s.
Proof.
  intros Hm Hk s b s'. unfold Apple.bind.
  destruct (m s) as [[a s1]|] eqn:E; [|discriminate].
  intros H. rewrite (Hk a s1 b s' H). exact (Hm s a s1 E).
Qed.

Lemma apple_pure_keeps {A} (f : Apple.state -> A) (s : Apple.state) (a : A)
  (s' : Apple.state) :
  Some (f s, s) = Some (a, s') ->
  Apple.timerlib_oofreq s' = Apple.timerlib_oofreq s.
Proof. intros H. injection H as _ <-. reflexivity. Qed.

Lemma apple_nanoseconds_keeps (t : Z) (s : Apple.state) (a : tick_t)
  (s' : Apple.state) :
  Apple.absolutetime_to_nanoseconds t s = Some (a, s') ->
  Apple.timerlib_oofreq s' = Apple.timerlib_oofreq s.
Proof.
  unfold Apple.absolutetime_to_nanoseconds.
  destruct (Apple.denom (Apple.timerlib_info s) =? 0); [discriminate|].
  intros H. injection H as _ <-. reflexivity.
Qed.

Lemma apple_mach_time_keeps (s : Apple.state) (a : Z) (s' : Apple.state) :
  Apple.call_mach_absolute_time asys s = Some (a, s') ->
  Apple.timerlib_oofreq s' = Apple.timerlib_oofreq s.
Proof. intros H. injection H as _ <-. reflexivity. Qed.

Lemma apple_set_mark_keeps (v : tick_t) (s : Apple.state) (a : unit)
  (s' : Apple.state) :
  Apple.set_mark v s = Some (a, s') ->
  Apple.timerlib_oofreq s' = Apple.timerlib_oofreq s.
Proof. intros H. injection H as _ <-. reflexivity. Qed.

(** Sequences of the steps above keep the reciprocal. *)
Ltac apple_keeps :=
  repeat first
    [ apply apple_mach_time_keeps
    | apply apple_nanoseconds_keeps
    | apply apple_set_mark_keeps
    | exact (apple_pure_keeps _)
    | apply apple_bind_keeps; [|intros ?] ].

Lemma apple_current_keeps (s : Apple.state) (a : tick_t) (s' : Apple.state) :
  Apple.timer_current_in_ticks asys s = Some (a, s') ->
  Apple.timerlib_oofreq s' = Apple.timerlib_oofreq s.
Proof.
  revert s a s'. unfold Apple.timer_current_in_ticks, Apple.ret. apple_keeps.
Qed.

Lemma apple_after_frame (c : call) (s s' : Apple.state) :
  Apple.init_succeeds asys c s = false ->
  Apple.after asys c s = Some s' ->
  Apple.timerlib_oofreq s' = Apple.timerlib_oofreq s.
Proof.
  intros Hc Ha.
  assert (Hsnd : forall A (r : option (A * Apple.state)) s0,
             option_map snd r = Some s0 -> exists a, r = Some (a, s0)).
  { intros A [[a s1]|] s0; cbn; intros H; [|discriminate].
    injection H as ->. exists a. reflexivity. }
  destruct c; cbn [Apple.after Apple.init_succeeds] in *;
    apply Hsnd in Ha; destruct Ha as (a & Ha); clear Hsnd; revert Ha.
  - revert Hc. unfold Apple.value, Apple.timer_lib_initialize. cbv zeta.
    destruct (fst (Apple.mach_timebase_info asys (Apple.system_calls s)
                     (Apple.timerlib_info s)) =? 0);
      cbn [negb option_map fst]; intros Hc H; [discriminate|].
    injection H as _ <-. reflexivity.
  - exact (apple_pure_keeps _ s a s').
  - apply apple_current_keeps.
  - exact (apple_pure_keeps _ s a s').
  - revert s a s'.
    unfold Apple.timer_elapsed, Apple.timer_elapsed_ticks, Apple.get_oofreq,
      Apple.ret.
    apple_keeps.
  - revert s a s'. unfold Apple.timer_elapsed_ticks, Apple.ret. apple_keeps.
  - revert s a s'. unfold Apple.timer_ticks_to_seconds, Apple.get_oofreq,
      Apple.ret.
    apple_keeps.
  - revert s a s'. unfold Apple.timer_system_in_millisecond, Apple.ret.
    apple_keeps.
  - revert s a s'. unfold Apple.timer_system_in_microsecond, Apple.ret.
    apple_keeps.
  - revert s a s'. unfold Apple.timer_system_in_nanosecond, Apple.ret.
    apple_keeps.
  - revert s a s'.
    unfold Apple.timer_elapsed_from_lastCall, Apple.get_mark, Apple.get_freq,
      Apple.ret.
    apply apple_bind_keeps; [exact (apple_pure_keeps _)|]. intros mark0.
    apply apple_bind_keeps.
    + destruct (0 =? mark0).
      * apply apple_bind_keeps; [apply apple_current_keeps|].
        intros t. apply apple_set_mark_keeps.
      * exact (apple_pure_keeps _).
    + intros u. apply apple_bind_keeps; [apply apple_current_keeps|].
      intros now. apple_keeps.
Qed.

Lemma apple_never_initialized_inv (s : Apple.state) :
  Apple.never_initialized asys s -> Apple.timerlib_oofreq s = 0%float.
Proof.
  induction 1 as [|s c s' Hs IH Hc Ha]; [reflexivity|].
  rewrite (apple_after_frame c s s' Hc Ha). exact IH.
Qed.

(** C4 (as amended): on each backend [timer_lib_initialize] returns -1
    exactly when its clock query fails and 0 otherwise: on POSIX when
    [clock_gettime(CLOCK_MONOTONIC)] returns non-zero, on Windows when
    [QueryPerformanceFrequency] or, after it succeeded,
    [QueryPerformanceCounter] returns FALSE (the counter is queried only
    then), on Apple when [mach_timebase_info] returns non-zero.  On failure [timerlib_oofreq] is
    as before on every backend (a reciprocal that was 0 remains 0), and
    [timerlib_freq] is as before on POSIX and on Apple, while on Windows it
    holds what [QueryPerformanceFrequency] left in it.  On success
    [timerlib_oofreq] is [1.0 / (double)timerlib_freq]. *)
Theorem timer_lib_initialize_backends (s ws : state) (as_ : Apple.state) :
  (let r := timer_lib_initialize clock s in
   (result r = -1 <-> next_rc clock CLOCK_MONOTONIC s <> 0) /\
   if next_rc clock CLOCK_MONOTONIC s =? 0 then
     result r = 0 /\
     timerlib_freq (final r) = 1000000000 /\
     timerlib_oofreq (final r) = (1 / of_uint64 (timerlib_freq (final r)))%float
   else
     result r = -1 /\
     events r = [ev_clock_gettime CLOCK_MONOTONIC] /\
     timerlib_freq (final r) = timerlib_freq s /\
     timerlib_oofreq (final r) = timerlib_oofreq s /\
     (timerlib_oofreq s = 0%float -> timerlib_oofreq (final r) = 0%float)) /\
  (let n := clock_calls ws in
   let f := Windows.QueryPerformanceFrequency wsys n (timerlib_freq ws) in
   let c := Windows.QueryPerformanceCounter wsys (S n)
              (Windows.indeterminate wsys n) in
   let r := Windows.timer_lib_initialize wsys ws in
   (result r = -1 <-> fst f && fst c = false) /\
   clock_calls (final r) = (if fst f then S (S n) else S n) /\
   if fst f && fst c then
     result r = 0 /\
     timerlib_freq (final r) = u64 (snd f) /\
     timerlib_oofreq (final r) = (1 / of_uint64 (timerlib_freq (final r)))%float
   else
     result r = -1 /\
     timerlib_freq (final r) = u64 (snd f) /\
     timerlib_oofreq (final r) = timerlib_oofreq ws /\
     (timerlib_oofreq ws = 0%float -> timerlib_oofreq (final r) = 0%float)) /\
  (let k := Apple.mach_timebase_info asys (Apple.system_calls as_)
              (Apple.timerlib_info as_) in
   exists rv s',
     Apple.timer_lib_initialize asys as_ = Some (rv, s') /\
     (rv = -1 <-> fst k <> 0) /\
     if fst k =? 0 then
       rv = 0 /\
       Apple.timerlib_freq s' = 1000000000 /\
       Apple.timerlib_oofreq s' = (1 / of_uint64 (Apple.timerlib_freq s'))%float
     else
       rv = -1 /\
       Apple.timerlib_freq s' = Apple.timerlib_freq as_ /\
       Apple.timerlib_oofreq s' = Apple.timerlib_oofreq as_ /\
       (Apple.timerlib_oofreq as_ = 0%float -> Apple.timerlib_oofreq s' = 0%float)).
Proof.
  split; [|split].
  - destruct (timer_lib_initialize_spec clock s) as [Hiff Hcase].
    cbv zeta in *. split; [exact Hiff|].
    destruct (next_rc clock CLOCK_MONOTONIC s =? 0).
    + destruct Hcase as (H1 & H2 & H3 & _). auto.
    + destruct Hcase as (H1 & H2 & H3 & H4 & _ & H6). auto.
  - unfold Windows.timer_lib_initialize, Windows.uninitialized, Windows.query,
      Windows.tick, bind, ret, get_freq, set_freq, set_oofreq, result, final.
    cbn [fst snd timerlib_freq timerlib_oofreq last_mark_ticks clock_calls].
    destruct (fst (Windows.QueryPerformanceFrequency wsys (clock_calls ws)
                     (timerlib_freq ws)));
      cbn [andb negb fst snd timerlib_freq timerlib_oofreq last_mark_ticks
           clock_calls].
    + destruct (fst (Windows.QueryPerformanceCounter wsys (S (clock_calls ws))
                       (Windows.indeterminate wsys (clock_calls ws))));
        cbn [negb fst snd timerlib_freq timerlib_oofreq last_mark_ticks
             clock_calls];
        (split; [split; intros H; (discriminate || reflexivity || lia)|]);
        repeat split; auto.
    + (split; [split; intros H; reflexivity|]); repeat split; auto.
  - unfold Apple.timer_lib_initialize. cbv zeta.
    destruct (fst (Apple.mach_timebase_info asys (Apple.system_calls as_)
                     (Apple.timerlib_info as_)) =? 0) eqn:E;
      cbn [negb]; eexists; eexists; (split; [reflexivity|]);
      cbn [Apple.timerlib_freq Apple.timerlib_oofreq].
    + apply Z.eqb_eq in E. split; [lia|]. repeat split; reflexivity.
    + apply Z.eqb_neq in E. split; [tauto|]. repeat split; auto.
Qed.

(** C9 (as amended): as long as [timer_lib_initialize] has not succeeded,
    the stored reciprocal is 0 on every backend and [timer_ticks_to_seconds]
    returns 0.0 for every argument; [timer_elapsed] returns 0.0 for every
    argument on POSIX (where [timer_ticks_per_second] already returns
    1000000000) and on Windows; on Apple it returns 0.0 once
    [timerlib_info.denom] is non-zero and has no result while that field is
    0, as it is in a fresh process. *)
Theorem uninitialized_seconds_backends (s ws : state) (as_ : Apple.state)
  (x : tick_t) :
  is_tick x ->
  (never_initialized clock s ->
   timerlib_oofreq s = 0%float /\
   result (timer_ticks_to_seconds x s) = 0%float /\
   result (timer_elapsed clock x s) = 0%float /\
   result (timer_ticks_per_second s) = 1000000000) /\
  (Windows.never_initialized wsys ws ->
   timerlib_oofreq ws = 0%float /\
   result (timer_ticks_to_seconds x ws) = 0%float /\
   result (Windows.timer_elapsed wsys x ws) = 0%float) /\
  (Apple.never_initialized asys as_ ->
   Apple.timerlib_oofreq as_ = 0%float /\
   Apple.value (Apple.timer_ticks_to_seconds x as_) = Some 0%float /\
   Apple.value (Apple.timer_elapsed asys x as_)
   = if Apple.denom (Apple.timerlib_info as_) =? 0 then None else Some 0%float).
Proof.
  intros Hx. split; [|split].
  - intros Hs. exact (uninitialized_seconds_are_zero clock s x Hs Hx).
  - intros Hs. pose proof (windows_never_initialized_inv ws Hs) as Ho.
    split; [exact Ho|].
    assert (E1 : result (timer_ticks_to_seconds x ws)
                 = (of_uint64 x * timerlib_oofreq ws)%float) by reflexivity.
    assert (E2 : result (Windows.timer_elapsed wsys x ws)
                 = (of_uint64 (result (Windows.timer_elapsed_ticks wsys x ws))
                    * timerlib_oofreq ws)%float) by reflexivity.
    rewrite E1, E2, Ho. split; apply of_uint64_mul_zero; [exact Hx|].
    apply u64_is_tick.
  - intros Hs. pose proof (apple_never_initialized_inv as_ Hs) as Ho.
    split; [exact Ho|].
    unfold Apple.timer_ticks_to_seconds, Apple.timer_elapsed,
      Apple.timer_elapsed_ticks, Apple.bind, Apple.ret, Apple.value,
      Apple.get_oofreq, Apple.call_mach_absolute_time,
      Apple.absolutetime_to_nanoseconds, Apple.tick.
    cbn [option_map fst Apple.timerlib_info Apple.timerlib_oofreq].
    rewrite Ho. split.
    + rewrite of_uint64_mul_zero by exact Hx. reflexivity.
    + destruct (Apple.denom (Apple.timerlib_info as_) =? 0);
        cbn [option_map fst Apple.timerlib_oofreq]; [reflexivity|].
      rewrite of_uint64_mul_zero by apply u64_is_tick. reflexivity.
Qed.

End Backends.

(** ** The three backends on concrete systems *)

(** C4 as stated fails on Windows: when the frequency query succeeds and
    the counter query fails, [timer_lib_initialize] returns -1 although
    [timerlib_freq] has changed from 10000000 to the queried 12345. *)
Lemma windows_failed_initialize_changes_freq :
  let r := Windows.timer_lib_initialize windows_no_counter Windows.initial_state in
  result r = -1 /\
  timerlib_freq Windows.initial_state = 10000000 /\
  timerlib_freq (final r) = 12345 /\
  timerlib_freq (final r) <> timerlib_freq Windows.initial_state.
Proof. vm_compute. repeat split; discriminate. Qed.

(** A failed initialisation in a fresh process, on each backend. *)
Lemma timer_lib_initialize_backends_witness :
  let r := timer_lib_initialize failing_clock initial_state in
  let w := Windows.timer_lib_initialize windows_no_counter Windows.initial_state in
  result r = -1 /\
  timerlib_freq (final r) = 1000000000 /\
  timerlib_oofreq (final r) = 0%float /\
  result w = -1 /\
  timerlib_freq (final w) = 12345 /\
  timerlib_oofreq (final w) = 0%float /\
  exists rv s',
    Apple.timer_lib_initialize apple_no_timebase Apple.initial_state
    = Some (rv, s') /\
    rv = -1 /\
    Apple.timerlib_freq s' = 1000000000 /\
    Apple.timerlib_oofreq s' = 0%float.
Proof.
  intros r w.
  destruct (timer_lib_initialize_backends failing_clock windows_no_counter
              apple_no_timebase initial_state Windows.initial_state
              Apple.initial_state) as (P & W & A).
  destruct P as (_ & P1 & _ & P2 & _ & P3).
  destruct W as (_ & _ & W1 & W2 & _ & W3).
  destruct A as (rv & s' & A0 & _ & A1 & A2 & _ & A3).
  split; [exact P1|]. split; [exact P2|]. split; [apply P3; reflexivity|].
  split; [exact W1|]. split; [exact W2|]. split; [apply W3; reflexivity|].
  exists rv, s'.
  split; [exact A0|]. split; [exact A1|]. split; [exact A2|].
  apply A3. reflexivity.
Defined.

(** C9 as stated fails on Apple: in a fresh process the reciprocal is 0, but
    [timer_elapsed] divides by the zero [timerlib_info.denom] and has no
    result. *)
Lemma apple_elapsed_before_initialize :
  Apple.never_initialized apple_sample Apple.initial_state /\
  Apple.timerlib_oofreq Apple.initial_state = 0%float /\
  Apple.value (Apple.timer_elapsed apple_sample 5 Apple.initial_state) = None /\
  Apple.value (Apple.timer_elapsed apple_sample 5 Apple.initial_state)
    <> Some 0%float.
Proof.
  split; [apply Apple.ni_start|].
  vm_compute. repeat split; discriminate.
Qed.

(** Three processes whose initialisation has failed: on POSIX the clock is
    unavailable, on Windows the counter query fails after the frequency was
    written, on Apple [mach_timebase_info] fails after the timebase was
    written. *)
Lemma uninitialized_seconds_backends_witness :
  let s := after failing_clock call_elapsed_from_lastCall
             (after failing_clock call_initialize initial_state) in
  let ws := Windows.after windows_no_counter call_initialize
              Windows.initial_state in
  is_tick 123456789 /\
  never_initialized failing_clock s /\
  Windows.never_initialized windows_no_counter ws /\
  Apple.never_initialized apple_late_failure apple_failed_state /\
  result (timer_elapsed failing_clock 123456789 s) = 0%float /\
  timerlib_freq ws = 12345 /\
  result (Windows.timer_elapsed windows_no_counter 123456789 ws) = 0%float /\
  Apple.value (Apple.timer_elapsed apple_late_failure 123456789
                 apple_failed_state) = Some 0%float.
Proof.
  intros s ws.
  assert (Hx : is_tick 123456789) by (unfold is_tick; lia).
  assert (Hs : never_initialized failing_clock s).
  { apply ni_call; [apply ni_call; [apply ni_start | reflexivity] | reflexivity]. }
  assert (Hw : Windows.never_initialized windows_no_counter ws).
  { apply Windows.ni_call; [apply Windows.ni_start | reflexivity]. }
  assert (Ha : Apple.never_initialized apple_late_failure apple_failed_state).
  { apply (Apple.ni_call apple_late_failure Apple.initial_state call_initialize);
      [apply Apple.ni_start | reflexivity | reflexivity]. }
  destruct (uninitialized_seconds_backends failing_clock windows_no_counter
              apple_late_failure s ws apple_failed_state 123456789 Hx)
    as (P & W & A).
  destruct (P Hs) as (_ & _ & P1 & _).
  destruct (W Hw) as (_ & _ & W1).
  destruct (A Ha) as (_ & _ & A1).
  split; [exact Hx|]. split; [exact Hs|]. split; [exact Hw|]. split; [exact Ha|].
  split; [exact P1|]. split; [reflexivity|]. split; [exact W1|]. exact A1.
Defined.
